(** * pyuoi: stability selection thresholds and the intersection step

    A shallow embedding of [src/pyuoi/linear_model/utils.py]
    ([stability_selection_to_threshold] and [intersection]) together with
    the fitted-state protocol of the Poisson solver exercised by
    [src/tests/test_poisson.py].

    Python floats and float64 array entries are IEEE binary64 numbers
    ([spec_float] with precision 53), Python ints are [Z], int64 array
    entries are [Z] with the wrap-around written out.  numpy arrays live in
    a heap of buffers; an [ndarray] value is a reference to a buffer plus a
    shape, so that views ([reshape], [squeeze]) and aliases share the
    buffer they were made from. *)

From Stdlib Require Import ZArith String Lia.
From Stdlib Require Import Floats.SpecFloat.
From stdpp Require Import base list.

Local Open Scope Z_scope.

(** ** IEEE binary64 *)

Module Float64.

Definition prec : Z := 53.
Definition emax : Z := 1024.

Definition float : Type := spec_float.

(** Conversion of an integer, rounding to nearest even.  Integers of
    magnitude [2^1024 - 2^970] and above give an infinity. *)
Definition of_Z (z : Z) : float := binary_normalize prec emax z 0 false.

Definition mul : float -> float -> float := SFmul prec emax.
Definition div : float -> float -> float := SFdiv prec emax.

Definition one : float := of_Z 1.

(** The float written [n / d] in decimal notation is the binary64
    number nearest to that quotient. *)
Definition of_ratio (n d : Z) : float := div (of_Z n) (of_Z d).

Definition is_nonzero (x : float) : bool :=
  match x with
  | S754_zero _ => false
  | _ => true
  end.

(** Truncation toward zero; undefined on infinities and NaN. *)
Definition trunc (x : float) : option Z :=
  match x with
  | S754_zero _ => Some 0
  | S754_finite s m e => Some (cond_Zopp s (Z.shiftl (Z.pos m) e))
  | S754_infinity _ | S754_nan => None
  end.

(** Rounding toward minus infinity. *)
Definition floor (x : float) : option Z :=
  match x with
  | S754_zero _ => Some 0
  | S754_finite s m e => Some (Z.shiftl (cond_Zopp s (Z.pos m)) e)
  | S754_infinity _ | S754_nan => None
  end.

End Float64.

Abbreviation float := Float64.float.

(** ** 64-bit integers *)

Definition int64_min : Z := - 2 ^ 63.
Definition int64_max : Z := 2 ^ 63 - 1.

Definition in_int64 (z : Z) : bool := (int64_min <=? z) && (z <=? int64_max).

Definition wrap64 (z : Z) : Z := (z + 2 ^ 63) mod 2 ^ 64 - 2 ^ 63.

(** The C conversion of a double to a 64-bit integer, as performed by
    [astype('int')]: truncation toward zero; values that do not fit (and
    infinities and NaN) give the most negative integer, as on x86-64. *)
Definition cast_int64 (x : float) : Z :=
  match Float64.trunc x with
  | Some z => if in_int64 z then z else int64_min
  | None => int64_min
  end.

(** ** Exceptions and results *)

Inductive exn : Type :=
  | ValueError (msg : string)
  | TypeError (msg : string)
  | OverflowError (msg : string)
  | IndexError (msg : string)
  | NotFittedError.

Inductive result (A : Type) : Type :=
  | Ok (a : A)
  | Raise (e : exn).
Arguments Ok {A} a.
Arguments Raise {A} e.

(** The messages of the four [ValueError]s raised by
    [stability_selection_to_threshold] itself. *)
Definition msg_list : string :=
  "Stability selection list must consist of floats or ints."%string.
Definition msg_array : string :=
  "Stability selection array must consist of floats or ints."%string.
Definition msg_valid : string :=
  "Stability selection must be a valid float, int or array."%string.
Definition msg_bounds : string :=
  "Stability selection thresholds must be within the correct bounds."%string.

(** ** The heap of array buffers *)

(** A buffer is the flat, C-ordered data of an array; its constructor is
    the dtype: float64, int64, bool, or any other dtype (strings, objects,
    complex numbers), of which only the number of entries is kept. *)
Inductive buffer : Type :=
  | BFloat (d : list float)
  | BInt (d : list Z)
  | BBool (d : list bool)
  | BOther (n : nat).

Abbreviation heap := (list buffer).

(** An array object: the buffer it reads and writes, and its shape. *)
Record ndarray : Type := { base : nat; shape : list nat }.

Definition size_of (sh : list nat) : nat := foldr Nat.mul 1%nat sh.

(** Python values that can be passed as [stability_selection]. [PyFloat]
    covers [float] and its subclass [numpy.float64]; [PyBool] is a
    subclass of [int]; [PyOther] is any object that is none of float,
    int, list or ndarray ([None], a string, a tuple, [numpy.int64], ...). *)
#[warnings="-register-all"]
Inductive pyobj : Type :=
  | PyFloat (x : float)
  | PyInt (z : Z)
  | PyBool (b : bool)
  | PyList (items : list pyobj)
  | PyArray (a : ndarray)
  | PyOther.

(** The [selection_thresholds] argument of [intersection]: an integer
    sequence, either a Python list or an array. *)
Inductive thresholds : Type :=
  | ThList (ts : list Z)
  | ThArray (a : ndarray).

(** ** The state and exception monad *)

Definition M (A : Type) : Type := heap -> result A * heap.

Definition ret {A} (a : A) : M A := fun h => (Ok a, h).

Definition raise {A} (e : exn) : M A := fun h => (Raise e, h).

Definition bind {A B} (m : M A) (k : A -> M B) : M B :=
  fun h =>
    match m h with
    | (Ok a, h') => k a h'
    | (Raise e, h') => (Raise e, h')
    end.

Notation "'do' x <- m ; k" := (bind m (fun x => k))
  (at level 20, x name, m at level 100, k at level 200, only parsing).
Notation "'run' m ; k" := (bind m (fun _ => k))
  (at level 20, m at level 100, k at level 200, only parsing).

(** A new array object over a fresh buffer. *)
Definition alloc (b : buffer) (sh : list nat) : M ndarray :=
  fun h => (Ok {| base := length h; shape := sh |}, h ++ [b]).

(** The buffer behind an array object.  A reference that points outside
    the heap cannot arise in Python; it is reported as a [TypeError]. *)
Definition buffer_of (a : ndarray) : M buffer :=
  fun h =>
    match h !! base a with
    | Some b => (Ok b, h)
    | None => (Raise (TypeError "not an array of this heap"%string), h)
    end.

(** In-place replacement of the data of an existing buffer. *)
Definition store (l : nat) (b : buffer) : M unit :=
  fun h => (Ok tt, <[l := b]> h).

(** ** Python and numpy primitives *)

(** [float(n)] as performed when an int meets a float in arithmetic. *)
Definition float_of_int (n : Z) : M float :=
  match Float64.of_Z n with
  | S754_infinity _ =>
      raise (OverflowError "int too large to convert to float"%string)
  | f => ret f
  end.

(** [int(x)] on a float. *)
Definition int_of_float (x : float) : M Z :=
  match Float64.trunc x with
  | Some z => ret z
  | None =>
      match x with
      | S754_nan =>
          raise (ValueError "cannot convert float NaN to integer"%string)
      | _ =>
          raise (OverflowError "cannot convert float infinity to integer"%string)
      end
  end.

(** [isinstance(o, float)] and [isinstance(o, int)]. *)
Definition is_float (o : pyobj) : bool :=
  match o with PyFloat _ => true | _ => false end.

Definition is_int (o : pyobj) : bool :=
  match o with PyInt _ | PyBool _ => true | _ => false end.

Definition is_bool (o : pyobj) : bool :=
  match o with PyBool _ => true | _ => false end.

Definition float_values (items : list pyobj) : list float :=
  omap (fun o => match o with PyFloat x => Some x | _ => None end) items.

Definition int_values (items : list pyobj) : list Z :=
  omap (fun o => match o with
                 | PyInt z => Some z
                 | PyBool b => Some (Z.b2z b)
                 | _ => None
                 end) items.

Definition bool_values (items : list pyobj) : list bool :=
  omap (fun o => match o with PyBool b => Some b | _ => None end) items.

(** [np.array(items)] on a list of floats: a one-dimensional float64
    array (also for the empty list). *)
Definition np_array_floats (items : list pyobj) : M ndarray :=
  alloc (BFloat (float_values items)) [length items].

(** [np.array(items)] on a non-empty list of ints: a bool array when every
    item is a [bool], an int64 array otherwise.  Python ints outside the
    int64 range leave numpy's default integer dtype; the embedding stops
    there with the [OverflowError] of the conversion to a C long. *)
Definition np_array_ints (items : list pyobj) : M ndarray :=
  if forallb is_bool items then
    alloc (BBool (bool_values items)) [length items]
  else if forallb in_int64 (int_values items) then
    alloc (BInt (int_values items)) [length items]
  else
    raise (OverflowError "Python int too large to convert to C long"%string).

(** [n * a] (or [a * n]) for a Python int [n] within the int64 range,
    which numpy takes as a C long: a new array.  A float64 array is
    multiplied in binary64 by the converted [n], an int64 array wraps
    around.  For an array of ndim 0 numpy returns a scalar
    ([numpy.float64], [numpy.int64]) instead of an array: the result of
    shape [[]] stands for that scalar, which [astype], the comparisons
    and [np.all] treat like an array of ndim 0, but which is no
    [ndarray] for [isinstance]. *)
Definition np_mul_scalar (n : Z) (a : ndarray) : M ndarray :=
  do b <- buffer_of a;
  match b with
  | BFloat d => alloc (BFloat (map (Float64.mul (Float64.of_Z n)) d)) (shape a)
  | BInt d => alloc (BInt (map (fun v => wrap64 (n * v)) d)) (shape a)
  | BBool d => alloc (BInt (map (fun v => wrap64 (n * Z.b2z v)) d)) (shape a)
  | BOther _ =>
      raise (TypeError "unsupported operand type(s) for *"%string)
  end.

(** [a.astype('int')]: always a new int64 array of the same shape. *)
Definition astype_int (a : ndarray) : M ndarray :=
  do b <- buffer_of a;
  match b with
  | BFloat d => alloc (BInt (map cast_int64 d)) (shape a)
  | BInt d => alloc (BInt d) (shape a)
  | BBool d => alloc (BInt (map Z.b2z d)) (shape a)
  | BOther _ =>
      raise (TypeError "cannot convert the array to int"%string)
  end.

(** The integer entries of an int64 or bool array. *)
Definition ints_of (a : ndarray) : M (list Z) :=
  do b <- buffer_of a;
  match b with
  | BInt d => ret d
  | BBool d => ret (map Z.b2z d)
  | _ => raise (TypeError "integer array expected"%string)
  end.

(** [a <= n], [a > n] and [a >= n] for an integer array: a new bool
    array of the same shape. *)
Definition np_le_scalar (a : ndarray) (n : Z) : M ndarray :=
  do d <- ints_of a; alloc (BBool (map (fun t => t <=? n) d)) (shape a).

Definition np_gt_scalar (a : ndarray) (n : Z) : M ndarray :=
  do d <- ints_of a; alloc (BBool (map (fun t => n <? t) d)) (shape a).

Definition np_ge_scalar (a : ndarray) (n : Z) : M ndarray :=
  do d <- ints_of a; alloc (BBool (map (fun t => n <=? t) d)) (shape a).

(** [np.all(a)] on a bool array. *)
Definition np_all (a : ndarray) : M bool :=
  do b <- buffer_of a;
  match b with
  | BBool d => ret (forallb id d)
  | _ => raise (TypeError "bool array expected"%string)
  end.

(** ** [stability_selection_to_threshold] *)

(** Lines 21-64: the dispatch on the type of [stability_selection]. *)
Definition convert (stability_selection : pyobj) (n_boots : Z) : M ndarray :=
  match stability_selection with
  | PyFloat x =>
      do f <- float_of_int n_boots;
      do t <- int_of_float (Float64.mul x f);
      np_array_ints [PyInt t]
  | PyInt z => np_array_ints [PyInt z]
  | PyBool b => np_array_ints [PyInt (Z.b2z b)]
  | PyList items =>
      if forallb is_float items then
        do a <- np_array_floats items;
        np_mul_scalar n_boots a
      else if forallb is_int items then
        np_array_ints items
      else
        raise (ValueError msg_list)
  | PyArray a =>
      do b <- buffer_of a;
      match b with
      | BFloat _ => np_mul_scalar n_boots a
      | BInt _ => ret a
      | _ => raise (ValueError msg_array)
      end
  | PyOther => raise (ValueError msg_valid)
  end.

(** Lines 68-74: [np.all(t <= n_boots) and np.all(t > 1)]; the second
    operand of [and] is evaluated only when the first one holds. *)
Definition within_bounds (selection_thresholds : ndarray) (n_boots : Z)
  : M bool :=
  do le <- np_le_scalar selection_thresholds n_boots;
  do all_le <- np_all le;
  if all_le then
    do gt <- np_gt_scalar selection_thresholds 1;
    np_all gt
  else ret false.

Definition stability_selection_to_threshold
    (stability_selection : pyobj) (n_boots : Z) : M ndarray :=
  do selection_thresholds <- convert stability_selection n_boots;
  do selection_thresholds <- astype_int selection_thresholds;
  do ok <- within_bounds selection_thresholds n_boots;
  if negb ok then raise (ValueError msg_bounds)
  else ret selection_thresholds.

(** What a caller observes of a call returning an integer array: its
    entries, or the exception. *)
Definition returned_ints (m : M ndarray) (h : heap) : result (list Z) :=
  match m h with
  | (Ok a, h') =>
      match h' !! base a with
      | Some (BInt d) => Ok d
      | _ => Raise (TypeError "integer array expected"%string)
      end
  | (Raise e, _) => Raise e
  end.

(** ** [intersection] *)

(** [a.shape[i]]. *)
Definition shape_at (a : ndarray) (i : nat) : M nat :=
  match shape a !! i with
  | Some d => ret d
  | None => raise (IndexError "tuple index out of range"%string)
  end.

(** Which entries of a buffer count as nonzero: a float is nonzero unless
    it is [0.0] or [-0.0] (NaN is nonzero). *)
Definition nonzero_flags (b : buffer) : option (list bool) :=
  match b with
  | BFloat d => Some (map Float64.is_nonzero d)
  | BInt d => Some (map (fun v => negb (v =? 0)) d)
  | BBool d => Some d
  | BOther _ => None
  end.

(** Entry [j] of [count_nonzero(_, axis=0)] for [nb] slabs of [inner]
    entries each: the number of slabs whose entry [j] is nonzero. *)
Definition count_column (nb inner : nat) (flags : list bool) (j : nat) : Z :=
  Z.of_nat (length (filter
    (fun b => flags !! (b * inner + j)%nat = Some true) (seq 0 nb))).

Definition count_axis0 (nb inner : nat) (flags : list bool) : list Z :=
  map (count_column nb inner flags) (seq 0 inner).

(** [np.count_nonzero(a, axis=0)]: a new integer array whose shape is
    that of [a] without its first axis. *)
Definition np_count_nonzero_axis0 (a : ndarray) : M ndarray :=
  do b <- buffer_of a;
  match shape a, nonzero_flags b with
  | nb :: rest, Some flags =>
      alloc (BInt (count_axis0 nb (size_of rest) flags)) rest
  | [], _ => raise (ValueError "axis 0 is out of bounds"%string)
  | _, None => raise (TypeError "count_nonzero: unsupported dtype"%string)
  end.

(** [a[i, ...] = v] for bool arrays, in place.  The value must have the
    shape of the slab it fills (always the case below, where both come
    from the same [coefs]); broadcasting a value of another shape is
    reported as numpy's broadcast error. *)
Definition setitem_slab (a : ndarray) (i : nat) (v : ndarray) : M unit :=
  do ab <- buffer_of a;
  do vb <- buffer_of v;
  match shape a with
  | d0 :: rest =>
      if (i <? d0)%nat then
        match ab, vb with
        | BBool old, BBool new =>
            if bool_decide (shape v = rest) then
              store (base a)
                (BBool (take (i * size_of rest) old ++ new
                        ++ drop ((i + 1) * size_of rest) old))
            else
              raise (ValueError "could not broadcast input array"%string)
        | _, _ => raise (TypeError "bool array expected"%string)
        end
      else raise (IndexError "index is out of bounds for axis 0"%string)
  | [] => raise (IndexError "too many indices for array"%string)
  end.

(** [np.zeros(dims, dtype=bool)] once every entry of the shape tuple has
    been converted to an integer. *)
Definition np_zeros_bool (dims : list Z) : M ndarray :=
  if existsb (fun d => d <? 0) dims then
    raise (ValueError "negative dimensions are not allowed"%string)
  else if 2 ^ 63 <=? foldr Z.mul 1 dims then
    raise (ValueError "array is too big"%string)
  else
    let sh := map Z.to_nat dims in
    alloc (BBool (replicate (size_of sh) false)) sh.

(** [np.reshape(a, dims)] on a C-contiguous array: a view on the same
    buffer.  One entry may be [-1] and is then inferred. *)
Definition np_reshape (a : ndarray) (dims : list Z) : M ndarray :=
  let size := Z.of_nat (size_of (shape a)) in
  let unknown := length (filter (fun d => d =? -1) dims) in
  let known := foldr Z.mul 1 (filter (fun d => negb (d =? -1)) dims) in
  let view (ds : list Z) : M ndarray :=
    ret {| base := base a; shape := map Z.to_nat ds |} in
  if existsb (fun d => d <? -1) dims then
    raise (ValueError "negative dimensions not allowed"%string)
  else
    match unknown with
    | O =>
        if known =? size then view dims
        else raise (ValueError "cannot reshape array"%string)
    | S O =>
        if negb (known =? 0) && (size mod known =? 0) then
          view (map (fun d => if d =? -1 then size / known else d) dims)
        else raise (ValueError "cannot reshape array"%string)
    | _ =>
        raise (ValueError "can only specify one unknown dimension"%string)
    end.

(** [np.squeeze(a)]: a view without the axes of length one. *)
Definition np_squeeze (a : ndarray) : M ndarray :=
  ret {| base := base a;
         shape := filter (fun d => negb (d =? 1)%nat) (shape a) |}.

(** Line 101: [np.count_nonzero(coefs, axis=0) >= threshold], where
    [count_nonzero] takes an [axis] argument (numpy 1.12 and later). *)
Definition threshold_support (coefs : ndarray) (threshold : Z) : M ndarray :=
  do counts <- np_count_nonzero_axis0 coefs;
  np_ge_scalar counts threshold.

Section Intersection.

(** numpy's conversion of an array to an index ([ndarray.__index__])
    accepts an integer array of ndim 0; numpy releases before 1.12 also
    accept, with a [DeprecationWarning], any integer array with a
    single entry.  [legacy_index] selects those releases, in which
    [count_nonzero] has no [axis] argument yet; the statements below are
    made for both. *)
Variable legacy_index : bool.

(** The conversion numpy applies to an entry of a shape tuple. *)
Definition index_of (o : thresholds) : M Z :=
  match o with
  | ThList _ =>
      raise (TypeError
        "'list' object cannot be interpreted as an integer"%string)
  | ThArray a =>
      do b <- buffer_of a;
      match b with
      | BInt [v] =>
          if legacy_index || bool_decide (shape a = []) then ret v
          else raise (TypeError
            "only integer scalar arrays can be converted to a scalar index"%string)
      | _ =>
          raise (TypeError
            "only integer scalar arrays can be converted to a scalar index"%string)
      end
  end.

(** The items produced by iterating over the thresholds.  Iterating
    over an array of two or more dimensions yields sub-arrays; an item
    with a single entry compares like that entry. *)
Definition elements_of (o : thresholds) : M (list Z) :=
  match o with
  | ThList ts => ret ts
  | ThArray a =>
      match shape a with
      | [] => raise (TypeError "iteration over a 0-d array"%string)
      | _ :: rest =>
          if (size_of rest =? 1)%nat then ints_of a
          else raise (ValueError "operands could not be broadcast together"%string)
      end
  end.

(** [o * n] for a Python int [n]: repetition for a list, entry-wise
    product for an array. *)
Definition th_mul (o : thresholds) (n : Z) : M thresholds :=
  match o with
  | ThList ts => ret (ThList (mjoin (replicate (Z.to_nat n) ts)))
  | ThArray a => do r <- np_mul_scalar n a; ret (ThArray r)
  end.

(** Line 101 on the numpy at hand: [count_nonzero] takes its [axis]
    argument from numpy 1.12 on; on the releases before, the call is
    refused with a [TypeError]. *)
Definition line_101 (coefs : ndarray) (threshold : Z) : M ndarray :=
  if legacy_index then
    raise (TypeError "count_nonzero() takes no keyword arguments"%string)
  else threshold_support coefs threshold.

(** Lines 98-101: the loop over [enumerate(selection_thresholds)]. *)
Fixpoint intersection_loop (coefs supports : ndarray) (thresh_idx : nat)
    (ts : list Z) : M unit :=
  match ts with
  | [] => ret tt
  | threshold :: ts' =>
      do support <- line_101 coefs threshold;
      run setitem_slab supports thresh_idx support;
      intersection_loop coefs supports (S thresh_idx) ts'
  end.

Definition intersection (coefs : ndarray) (selection_thresholds : thresholds)
  : M ndarray :=
  let n_selection_thresholds := selection_thresholds in
  do n_reg_params <- shape_at coefs 1;
  do n_features <- shape_at coefs 2;
  do d0 <- index_of n_selection_thresholds;
  do supports <-
    np_zeros_bool [d0; Z.of_nat n_reg_params; Z.of_nat n_features];
  do ts <- elements_of selection_thresholds;
  run intersection_loop coefs supports 0 ts;
  do rows <- th_mul n_selection_thresholds (Z.of_nat n_reg_params);
  do d <- index_of rows;
  do flat <- np_reshape supports [d; Z.of_nat n_features];
  np_squeeze flat.

End Intersection.

(** What a caller observes of a call returning a bool array: its shape
    and entries, or the exception. *)
Definition returned_bools (m : M ndarray) (h : heap)
  : result (list nat * list bool) :=
  match m h with
  | (Ok a, h') =>
      match h' !! base a with
      | Some (BBool d) => Ok (shape a, d)
      | _ => Raise (TypeError "bool array expected"%string)
      end
  | (Raise e, _) => Raise e
  end.

(** The support set of the specification for one threshold, over a tensor
    of shape [(nb, nl, nf)] given by its nonzero flags: feature [f] at
    regularisation strength [l] is selected exactly when its coefficient
    is nonzero in at least [threshold] of the [nb] bootstraps. *)
Definition spec_support (nb nl nf : nat) (flags : list bool) (threshold : Z)
  : list bool :=
  flat_map (fun l =>
    map (fun f =>
      threshold <=?
        Z.of_nat (length (filter
          (fun b => flags !! (b * (nl * nf) + l * nf + f)%nat = Some true)
          (seq 0 nb))))
      (seq 0 nf))
    (seq 0 nl).

(** ** The fitted state of the Poisson solver *)

Module Poisson.

(** Modelled from the spec: the solver class [Poisson] of
    [pyuoi/linear_model/poisson.py] is not among the sources, only its
    tests are.  Section 4.4 describes it as a state machine
    [Unfit -> Fitting -> Fitted]; a fitted solver holds its
    coefficient vector [coef_] and its [intercept_]. *)
Inductive state : Type :=
  | Unfit
  | Fitting
  | Fitted (coef_ : list float) (intercept_ : float).

(** Modelled from the spec: a newly constructed solver, [Poisson()], is
    in the state [Unfit]. *)
Definition new : state := Unfit.

(** Modelled from the spec: [fit] has completed exactly in the state
    [Fitted]. *)
Definition fit_completed (s : state) : bool :=
  match s with
  | Fitted _ _ => true
  | Unfit | Fitting => false
  end.

Section Predict.

(** The numerical content of the predictions, [exp(X beta +
    intercept)] and its rounding, is left abstract. *)
Variable conditional_mean :
  list float -> float -> list (list float) -> list float.
Variable round_count : float -> float.

(** Modelled from the spec: [predict_mean(X)] requires the state
    [Fitted], else fails with a not-fitted condition; it returns the
    conditional mean, unrounded. *)
Definition predict_mean (s : state) (X : list (list float))
  : result (list float) :=
  match s with
  | Fitted coef_ intercept_ => Ok (conditional_mean coef_ intercept_ X)
  | Unfit | Fitting => Raise NotFittedError
  end.

(** Modelled from the spec: [predict(X)] requires the state [Fitted],
    else fails with a not-fitted condition; it returns the rounded
    conditional mean. *)
Definition predict (s : state) (X : list (list float))
  : result (list float) :=
  match s with
  | Fitted coef_ intercept_ =>
      Ok (map round_count (conditional_mean coef_ intercept_ X))
  | Unfit | Fitting => Raise NotFittedError
  end.

End Predict.

End Poisson.

(** The bounds test of lines 69-72 on the entries themselves. *)
Definition bounds_ok (ths : list Z) (n_boots : Z) : bool :=
  forallb (fun t => t <=? n_boots) ths && forallb (fun t => 1 <? t) ths.

(** The entries [astype('int')] produces from a buffer. *)
Definition int_entries (b : buffer) : option (list Z) :=
  match b with
  | BFloat d => Some (map cast_int64 d)
  | BInt d => Some d
  | BBool d => Some (map Z.b2z d)
  | BOther _ => None
  end.

(** ** The worked example of the specification *)

(** A tensor of shape (5 bootstraps, 1 lambda, 3 features): feature 0 is
    nonzero in all five bootstraps, feature 1 in exactly three, feature 2
    in none.  It lives in a heap together with the threshold arrays
    [[4]] and [[4, 3]]. *)
Definition example_tensor : list float :=
  let c := Float64.one in
  let z := S754_zero false in
  [c; c; z;   c; c; z;   c; c; z;   c; z; z;   c; z; z].

Definition example_heap : heap :=
  [BFloat example_tensor; BInt [4]; BInt [4; 3]].

Definition example_coefs : ndarray := {| base := 0; shape := [5; 1; 3]%nat |}.

Definition example_threshold : ndarray := {| base := 1; shape := [1%nat] |}.

Definition example_two_thresholds : ndarray :=
  {| base := 2; shape := [2%nat] |}.

(** A threshold sequence with two or more entries. *)
Definition two_or_more (h : heap) (th : thresholds) : Prop :=
  match th with
  | ThList ts => (2 <= length ts)%nat
  | ThArray a =>
      exists d, h !! base a = Some (BInt d) /\ (2 <= length d)%nat
  end.

(** Inputs that give thresholds as counts: an int, a list that is not a
    list of floats, an integer array. *)
Definition is_count_input (h : heap) (ss : pyobj) : Prop :=
  match ss with
  | PyInt _ | PyBool _ => True
  | PyList items => forallb is_float items = false
  | PyArray a => exists d, h !! base a = Some (BInt d)
  | PyFloat _ | PyOther => False
  end.

(** Inputs that give a single criterion: a float, an int or a bool. *)
Definition is_scalar (ss : pyobj) : Prop :=
  match ss with
  | PyFloat _ | PyInt _ | PyBool _ => True
  | PyList _ | PyArray _ | PyOther => False
  end.

(** * Properties *)

(** ** Running the primitives *)

Lemma bind_ok {A B} (m : M A) (k : A -> M B) h a h' :
  m h = (Ok a, h') -> bind m k h = k a h'.
Proof. intros E. unfold bind. now rewrite E. Qed.

Lemma bind_raise {A B} (m : M A) (k : A -> M B) h e h' :
  m h = (Raise e, h') -> bind m k h = (Raise e, h').
Proof. intros E. unfold bind. now rewrite E. Qed.

Lemma buffer_of_ok a b h :
  h !! base a = Some b -> buffer_of a h = (Ok b, h).
Proof. intros E. unfold buffer_of. now rewrite E. Qed.

Lemma lookup_fresh (h : heap) b ext : (h ++ b :: ext) !! length h = Some b.
Proof. now apply list_lookup_middle. Qed.

Lemma lookup_old (h ext : heap) l b :
  h !! l = Some b -> (h ++ ext) !! l = Some b.
Proof. apply lookup_app_l_Some. Qed.

Lemma astype_int_ok a b d h :
  h !! base a = Some b -> int_entries b = Some d ->
  astype_int a h = (Ok {| base := length h; shape := shape a |}, h ++ [BInt d]).
Proof.
  intros Hb Hd. unfold astype_int. rewrite (bind_ok _ _ _ _ _ (buffer_of_ok _ _ _ Hb)).
  destruct b; simpl in Hd; inversion Hd; subst; reflexivity.
Qed.

Lemma ints_of_ok a d h :
  h !! base a = Some (BInt d) -> ints_of a h = (Ok d, h).
Proof.
  intros Hb. unfold ints_of.
  now rewrite (bind_ok _ _ _ _ _ (buffer_of_ok _ _ _ Hb)).
Qed.

Lemma np_all_ok a d h :
  h !! base a = Some (BBool d) -> np_all a h = (Ok (forallb id d), h).
Proof.
  intros Hb. unfold np_all.
  now rewrite (bind_ok _ _ _ _ _ (buffer_of_ok _ _ _ Hb)).
Qed.

Lemma forallb_map_id {A} (f : A -> bool) (l : list A) :
  forallb id (map f l) = forallb f l.
Proof. induction l as [|x l IH]; simpl; [reflexivity | now rewrite IH]. Qed.

Lemma np_le_scalar_ok a d n h :
  h !! base a = Some (BInt d) ->
  np_le_scalar a n h =
    (Ok {| base := length h; shape := shape a |},
     h ++ [BBool (map (fun t => t <=? n) d)]).
Proof.
  intros Hb. unfold np_le_scalar.
  now rewrite (bind_ok _ _ _ _ _ (ints_of_ok _ _ _ Hb)).
Qed.

Lemma np_gt_scalar_ok a d n h :
  h !! base a = Some (BInt d) ->
  np_gt_scalar a n h =
    (Ok {| base := length h; shape := shape a |},
     h ++ [BBool (map (fun t => n <? t) d)]).
Proof.
  intros Hb. unfold np_gt_scalar.
  now rewrite (bind_ok _ _ _ _ _ (ints_of_ok _ _ _ Hb)).
Qed.

Lemma np_ge_scalar_ok a d n h :
  h !! base a = Some (BInt d) ->
  np_ge_scalar a n h =
    (Ok {| base := length h; shape := shape a |},
     h ++ [BBool (map (fun t => n <=? t) d)]).
Proof.
  intros Hb. unfold np_ge_scalar.
  now rewrite (bind_ok _ _ _ _ _ (ints_of_ok _ _ _ Hb)).
Qed.

(** The bounds test reads the thresholds and leaves every buffer that
    existed before it in place. *)
Lemma within_bounds_ok a d n h :
  h !! base a = Some (BInt d) ->
  exists ext, within_bounds a n h = (Ok (bounds_ok d n), h ++ ext).
Proof.
  intros Hb. unfold within_bounds, bounds_ok.
  rewrite (bind_ok _ _ _ _ _ (np_le_scalar_ok _ _ n _ Hb)).
  erewrite bind_ok; [| apply np_all_ok; simpl; apply lookup_fresh].
  rewrite forallb_map_id.
  destruct (forallb (fun t => t <=? n) d); simpl.
  - rewrite (bind_ok _ _ _ _ _
      (np_gt_scalar_ok _ _ 1 _ (lookup_old _ _ _ _ Hb))).
    erewrite np_all_ok; [| simpl; apply lookup_fresh].
    rewrite forallb_map_id, <- app_assoc. eauto.
  - eauto.
Qed.

(** [stability_selection_to_threshold] once the dispatch has produced an
    array: the entries are converted and tested, and returned as they
    are. *)
Lemma sstt_after_convert ss n h c h1 b d :
  convert ss n h = (Ok c, h1) ->
  h1 !! base c = Some b -> int_entries b = Some d ->
  exists ext,
    stability_selection_to_threshold ss n h =
      (if bounds_ok d n
       then Ok {| base := length h1; shape := shape c |}
       else Raise (ValueError msg_bounds),
       h1 ++ BInt d :: ext).
Proof.
  intros Hc Hb Hd. unfold stability_selection_to_threshold.
  rewrite (bind_ok _ _ _ _ _ Hc).
  rewrite (bind_ok _ _ _ _ _ (astype_int_ok _ _ _ _ Hb Hd)).
  destruct (within_bounds_ok {| base := length h1; shape := shape c |} d n
              (h1 ++ [BInt d])) as [ext Hw].
  { simpl. apply lookup_fresh. }
  rewrite (bind_ok _ _ _ _ _ Hw). rewrite <- app_assoc. simpl.
  exists ext. now destruct (bounds_ok d n).
Qed.

Lemma sstt_convert_raises ss n h e h1 :
  convert ss n h = (Raise e, h1) ->
  stability_selection_to_threshold ss n h = (Raise e, h1).
Proof.
  intros Hc. unfold stability_selection_to_threshold.
  now rewrite (bind_raise _ _ _ _ _ Hc).
Qed.

Lemma returned_ints_after_convert ss n h c h1 b d :
  convert ss n h = (Ok c, h1) ->
  h1 !! base c = Some b -> int_entries b = Some d ->
  returned_ints (stability_selection_to_threshold ss n) h =
    if bounds_ok d n then Ok d else Raise (ValueError msg_bounds).
Proof.
  intros Hc Hb Hd.
  destruct (sstt_after_convert ss n h c h1 b d Hc Hb Hd) as [ext E].
  unfold returned_ints. rewrite E.
  destruct (bounds_ok d n); [| reflexivity].
  simpl. now rewrite lookup_fresh.
Qed.

(** ** Truncation, rounding down and the C conversion *)

Lemma trunc_floor_pos x t :
  0 < t -> Float64.floor x = Some t <-> Float64.trunc x = Some t.
Proof.
  intros Ht. destruct x as [s | s | | s m e]; simpl; try tauto.
  destruct s; simpl; [| tauto].
  assert (H1 : 0 <= Z.shiftl (Z.pos m) e) by (apply Z.shiftl_nonneg; lia).
  assert (H2 : ~ 0 <= Z.shiftl (- Z.pos m) e)
    by (rewrite Z.shiftl_nonneg; lia).
  split; intros E; inversion E; subst; exfalso; lia.
Qed.

Lemma mul_infinity_undefined x s :
  Float64.trunc (Float64.mul x (S754_infinity s)) = None.
Proof. now destruct x as [sx | sx | | sx m e]. Qed.

Lemma cast_int64_trunc y t :
  Float64.trunc y = Some t -> in_int64 t = true -> cast_int64 y = t.
Proof. intros E I. unfold cast_int64. now rewrite E, I. Qed.

Lemma cast_int64_gt y :
  1 < cast_int64 y -> Float64.trunc y = Some (cast_int64 y).
Proof.
  unfold cast_int64. destruct (Float64.trunc y) as [z|].
  - destruct (in_int64 z); [reflexivity |]. unfold int64_min. lia.
  - unfold int64_min. lia.
Qed.

Lemma in_int64_spec z :
  in_int64 z = true <-> int64_min <= z <= int64_max.
Proof. unfold in_int64. rewrite andb_true_iff, !Z.leb_le. tauto. Qed.

Lemma bounds_ok_spec d n :
  bounds_ok d n = true <-> Forall (fun t => 1 < t <= n) d.
Proof.
  unfold bounds_ok. rewrite andb_true_iff, !forallb_forall, Forall_forall.
  split.
  - intros [H1 H2] t Ht. apply list_elem_of_In in Ht.
    specialize (H1 t Ht). specialize (H2 t Ht). lia.
  - intros H. split; intros t Ht; apply list_elem_of_In in Ht;
      specialize (H t Ht); lia.
Qed.

Lemma bounds_ok_false d n :
  bounds_ok d n = false <-> Exists (fun t => ~ (1 < t <= n)) d.
Proof.
  rewrite <- not_true_iff_false, bounds_ok_spec.
  symmetry. apply Exists_Forall_neg. intros t. lia.
Qed.

(** ** The dispatch on the type of [stability_selection] *)

Lemma np_array_ints_single t h :
  np_array_ints [PyInt t] h =
    if in_int64 t
    then (Ok {| base := length h; shape := [1%nat] |}, h ++ [BInt [t]])
    else (Raise (OverflowError
            "Python int too large to convert to C long"%string), h).
Proof.
  unfold np_array_ints. cbn [forallb is_bool int_values omap list_omap].
  cbn. rewrite andb_true_r. now destruct (in_int64 t).
Qed.

Lemma convert_float_run x n h :
  convert (PyFloat x) n h =
    match Float64.of_Z n with
    | S754_infinity _ =>
        (Raise (OverflowError "int too large to convert to float"%string), h)
    | f =>
        match Float64.trunc (Float64.mul x f) with
        | Some t => np_array_ints [PyInt t] h
        | None =>
            (Raise
               match Float64.mul x f with
               | S754_nan =>
                   ValueError "cannot convert float NaN to integer"%string
               | _ =>
                   OverflowError
                     "cannot convert float infinity to integer"%string
               end, h)
        end
    end.
Proof.
  unfold convert, float_of_int, int_of_float.
  destruct (Float64.of_Z n); try reflexivity.
  all: unfold bind at 1, ret at 1.
  all: destruct (Float64.trunc _); [reflexivity |].
  all: destruct (Float64.mul _ _); reflexivity.
Qed.

Lemma convert_float_cases x n h :
  (exists t,
      Float64.trunc (Float64.mul x (Float64.of_Z n)) = Some t /\
      in_int64 t = true /\
      convert (PyFloat x) n h =
        (Ok {| base := length h; shape := [1%nat] |}, h ++ [BInt [t]]))
  \/ (exists e, convert (PyFloat x) n h = (Raise e, h)).
Proof.
  rewrite convert_float_run.
  destruct (Float64.of_Z n) as [s | s | | s m e] eqn:En; cbv beta iota zeta;
    [| right; eexists; reflexivity | |].
  all: match goal with
       | |- context [Float64.trunc ?p] =>
           destruct (Float64.trunc p) as [t|] eqn:Et;
             [| right; eexists; reflexivity]
       end.
  all: rewrite np_array_ints_single.
  all: destruct (in_int64 t) eqn:It;
    [left; eauto | right; eexists; reflexivity].
Qed.

Lemma convert_float_ok x n h t :
  Float64.trunc (Float64.mul x (Float64.of_Z n)) = Some t ->
  in_int64 t = true ->
  convert (PyFloat x) n h =
    (Ok {| base := length h; shape := [1%nat] |}, h ++ [BInt [t]]).
Proof.
  intros Et It. rewrite convert_float_run.
  destruct (Float64.of_Z n) as [s | s | | s m e] eqn:En; cbv beta iota zeta.
  2: { now rewrite mul_infinity_undefined in Et. }
  all: now rewrite Et, np_array_ints_single, It.
Qed.

Lemma float_values_floats xs : float_values (map PyFloat xs) = xs.
Proof.
  unfold float_values. induction xs as [|x xs IH]; [reflexivity |].
  cbn. now rewrite IH.
Qed.

Lemma forallb_is_float_floats xs : forallb is_float (map PyFloat xs) = true.
Proof. induction xs as [|x xs IH]; [reflexivity | exact IH]. Qed.

Lemma convert_float_list xs n h :
  convert (PyList (map PyFloat xs)) n h =
    (Ok {| base := S (length h); shape := [length xs] |},
     h ++ [BFloat xs; BFloat (map (Float64.mul (Float64.of_Z n)) xs)]).
Proof.
  unfold convert. rewrite forallb_is_float_floats.
  unfold np_array_floats. rewrite float_values_floats, length_map.
  unfold bind at 1, alloc at 1. unfold np_mul_scalar.
  erewrite bind_ok; [| apply buffer_of_ok; simpl; apply lookup_fresh].
  unfold alloc. rewrite length_app, <- app_assoc. simpl.
  now rewrite Nat.add_1_r.
Qed.

Lemma returned_ints_float_list xs n h :
  returned_ints
    (stability_selection_to_threshold (PyList (map PyFloat xs)) n) h =
    let d := map (fun x => cast_int64 (Float64.mul (Float64.of_Z n) x)) xs in
    if bounds_ok d n then Ok d else Raise (ValueError msg_bounds).
Proof.
  erewrite returned_ints_after_convert.
  - reflexivity.
  - apply convert_float_list.
  - simpl. rewrite Nat.add_1_r || idtac.
    replace (S (length h)) with (length (h ++ [BFloat xs]))
      by (rewrite length_app; simpl; lia).
    change (h ++ [BFloat xs; ?b]) with (h ++ [BFloat xs] ++ [b]).
    rewrite app_assoc. apply lookup_fresh.
  - simpl. now rewrite map_map.
Qed.

Lemma converted_inv ss n h ths :
  returned_ints (do c <- convert ss n; astype_int c) h = Ok ths ->
  exists c h1 b,
    convert ss n h = (Ok c, h1) /\ h1 !! base c = Some b /\
    int_entries b = Some ths.
Proof.
  unfold returned_ints, bind.
  destruct (convert ss n h) as [[c | e] h1]; [| discriminate].
  unfold astype_int, bind, buffer_of.
  destruct (h1 !! base c) as [b |] eqn:Hb; [| discriminate].
  destruct b; unfold alloc, raise; cbn [base]; rewrite ?lookup_fresh;
    intros E; inversion E; subst; eauto 6.
Qed.

(** ** Claims about [stability_selection_to_threshold] *)

(** C3, as stated, fails: the call does not map every float to
    [floor (x * n_boots)].  For [0.1] with [n_boots = 10] that value is
    [1], which the bounds test of lines 69-74 rejects: the call raises
    and returns no sequence. *)
Lemma C3_counterexample :
  ~ (forall (x : float) (n : Z) (h : heap) (t : Z),
        Float64.floor (Float64.mul x (Float64.of_Z n)) = Some t ->
        returned_ints (stability_selection_to_threshold (PyFloat x) n) h
          = Ok [t]).
Proof.
  intros H.
  specialize (H (Float64.of_ratio 1 10) 10 [] 1 ltac:(vm_compute; reflexivity)).
  vm_compute in H. discriminate.
Qed.

(** C3, amended.  For [n_boots] within the int64 range: a single float
    [x] is mapped to the one-element sequence [floor (x * n_boots)], the
    product being the binary64 product, whenever that value [t] satisfies
    [1 < t <= n_boots], and the call never returns anything else for a
    single float.  A list of floats is mapped to the entry-wise
    truncation of [n_boots * x] whenever every such entry satisfies the
    bounds, and the call never returns anything else for such a list.  In
    particular [0.9] with [n_boots = 10] gives [9], and [0.5; 0.9] gives
    [5; 9]. *)
Theorem C3_threshold_conversion (x : float) (xs : list float) (n : Z)
    (h : heap) :
  n <= int64_max ->
  let scalar :=
    returned_ints (stability_selection_to_threshold (PyFloat x) n) h in
  let listed :=
    returned_ints
      (stability_selection_to_threshold (PyList (map PyFloat xs)) n) h in
  (forall t,
      Float64.floor (Float64.mul x (Float64.of_Z n)) = Some t ->
      1 < t <= n -> scalar = Ok [t])
  /\ (forall r, scalar = Ok r ->
        exists t,
          Float64.floor (Float64.mul x (Float64.of_Z n)) = Some t /\ r = [t])
  /\ (forall ts,
        Forall2 (fun x t =>
          Float64.trunc (Float64.mul (Float64.of_Z n) x) = Some t /\
          1 < t <= n) xs ts ->
        listed = Ok ts)
  /\ (forall r, listed = Ok r ->
        Forall2 (fun x t =>
          Float64.trunc (Float64.mul (Float64.of_Z n) x) = Some t) xs r)
  /\ returned_ints
       (stability_selection_to_threshold
          (PyFloat (Float64.of_ratio 9 10)) 10) h = Ok [9]
  /\ returned_ints
       (stability_selection_to_threshold
          (PyList [PyFloat (Float64.of_ratio 1 2);
                   PyFloat (Float64.of_ratio 9 10)]) 10) h = Ok [5; 9].
Proof.
  intros Hn scalar listed. subst scalar listed. repeat split.
  - (* single float, within the bounds *)
    intros t Hf Ht. apply trunc_floor_pos in Hf; [| lia].
    assert (It : in_int64 t = true)
      by (apply in_int64_spec; unfold int64_min; lia).
    erewrite returned_ints_after_convert;
      [| apply (convert_float_ok _ _ _ _ Hf It)
       | cbn [base]; apply lookup_fresh | reflexivity].
    replace (bounds_ok [t] n) with true; [reflexivity |].
    symmetry. apply bounds_ok_spec. repeat constructor; lia.
  - (* single float, what is returned *)
    intros r. destruct (convert_float_cases x n h) as [(t & Et & It & E) | [e E]].
    + erewrite returned_ints_after_convert;
        [| exact E | cbn [base]; apply lookup_fresh | reflexivity].
      destruct (bounds_ok [t] n) eqn:B; [| discriminate].
      intros R. inversion R; subst. exists t. split; [| reflexivity].
      apply bounds_ok_spec in B. inversion B; subst.
      apply trunc_floor_pos; [lia | exact Et].
    + unfold returned_ints. rewrite (sstt_convert_raises _ _ _ _ _ E).
      discriminate.
  - (* list of floats, within the bounds *)
    intros ts F. rewrite returned_ints_float_list. cbv zeta.
    assert (E : map (fun x => cast_int64 (Float64.mul (Float64.of_Z n) x)) xs
                = ts).
    { induction F as [| y t ys ts' [Ey Hy] F IH]; [reflexivity |].
      cbn [map]. rewrite IH. f_equal. apply cast_int64_trunc; [exact Ey |].
      apply in_int64_spec. unfold int64_min. lia. }
    rewrite E. replace (bounds_ok ts n) with true; [reflexivity |].
    symmetry. apply bounds_ok_spec.
    clear E. induction F as [| y t ys ts' [Ey Hy] F IH]; constructor; auto.
  - (* list of floats, what is returned *)
    intros r. rewrite returned_ints_float_list. cbv zeta.
    destruct (bounds_ok _ n) eqn:B; [| discriminate].
    intros R. inversion R; subst. clear R. apply bounds_ok_spec in B.
    induction xs as [| y ys IH]; [constructor |].
    cbn [map] in *. inversion B; subst. constructor; [| auto].
    apply cast_int64_gt. lia.
  - erewrite returned_ints_after_convert;
      [| apply (convert_float_ok _ _ _ 9); [vm_compute; reflexivity | reflexivity]
       | cbn [base]; apply lookup_fresh | reflexivity].
    reflexivity.
  - change [PyFloat (Float64.of_ratio 1 2); PyFloat (Float64.of_ratio 9 10)]
      with (map PyFloat [Float64.of_ratio 1 2; Float64.of_ratio 9 10]).
    rewrite returned_ints_float_list. vm_compute. reflexivity.
Qed.

Lemma C3_threshold_conversion_witness :
  returned_ints
    (stability_selection_to_threshold (PyFloat (Float64.of_ratio 7 10)) 10)
    [] = Ok [7]
  /\ returned_ints
       (stability_selection_to_threshold
          (PyList (map PyFloat [Float64.of_ratio 29 100])) 100) [] = Ok [28].
Proof.
  split.
  - assert (Hn : 10 <= int64_max) by (vm_compute; discriminate).
    apply (proj1 (C3_threshold_conversion (Float64.of_ratio 7 10) [] 10 [] Hn)).
    + vm_compute. reflexivity.
    + lia.
  - assert (Hn : 100 <= int64_max) by (vm_compute; discriminate).
    apply (proj1 (proj2 (proj2
             (C3_threshold_conversion Float64.one [Float64.of_ratio 29 100]
                100 [] Hn)))).
    repeat constructor; vm_compute; congruence.
Defined.

(** C4.  Once the dispatch and the conversion to integers have produced
    the thresholds [ths], the call raises the bounds [ValueError] exactly
    when some threshold violates [1 < t <= n_boots]; otherwise it returns
    [ths] themselves, and it never returns anything but [ths] (no
    clamping).  The scalars [1] and [11] with [n_boots = 10] both raise. *)
Theorem C4_bounds_validation (ss : pyobj) (n : Z) (h : heap) (ths : list Z) :
  returned_ints (do c <- convert ss n; astype_int c) h = Ok ths ->
  let outcome := returned_ints (stability_selection_to_threshold ss n) h in
  (outcome = Raise (ValueError msg_bounds) <->
     Exists (fun t => ~ (1 < t <= n)) ths)
  /\ (outcome = Ok ths <-> Forall (fun t => 1 < t <= n) ths)
  /\ (forall r, outcome = Ok r -> r = ths)
  /\ returned_ints (stability_selection_to_threshold (PyInt 1) 10) h
       = Raise (ValueError msg_bounds)
  /\ returned_ints (stability_selection_to_threshold (PyInt 11) 10) h
       = Raise (ValueError msg_bounds).
Proof.
  intros Hc outcome. subst outcome.
  destruct (converted_inv _ _ _ _ Hc) as (c & h1 & b & E & Hb & Hd).
  rewrite (returned_ints_after_convert _ _ _ _ _ _ _ E Hb Hd).
  rewrite <- bounds_ok_false, <- bounds_ok_spec.
  repeat split.
  - destruct (bounds_ok ths n); [discriminate | reflexivity].
  - intros B. now rewrite B.
  - destruct (bounds_ok ths n); [reflexivity | discriminate].
  - intros B. now rewrite B.
  - intros r. destruct (bounds_ok ths n); [| discriminate].
    intros R. now inversion R.
  - erewrite returned_ints_after_convert;
      [| unfold convert; rewrite np_array_ints_single; reflexivity
       | cbn [base]; apply lookup_fresh | reflexivity].
    reflexivity.
  - erewrite returned_ints_after_convert;
      [| unfold convert; rewrite np_array_ints_single; reflexivity
       | cbn [base]; apply lookup_fresh | reflexivity].
    reflexivity.
Qed.

Lemma C4_bounds_validation_witness :
  returned_ints
    (stability_selection_to_threshold (PyList [PyInt 5; PyInt 1]) 10) []
    = Raise (ValueError msg_bounds)
  /\ returned_ints
       (stability_selection_to_threshold (PyList [PyInt 5; PyInt 9]) 10) []
       = Ok [5; 9].
Proof.
  split.
  - assert (Hc : returned_ints
                   (do c <- convert (PyList [PyInt 5; PyInt 1]) 10;
                    astype_int c) [] = Ok [5; 1])
      by (vm_compute; reflexivity).
    apply (proj1 (C4_bounds_validation _ _ _ _ Hc)).
    apply Exists_cons_tl, Exists_cons_hd. lia.
  - assert (Hc : returned_ints
                   (do c <- convert (PyList [PyInt 5; PyInt 9]) 10;
                    astype_int c) [] = Ok [5; 9])
      by (vm_compute; reflexivity).
    apply (proj1 (proj2 (C4_bounds_validation _ _ _ _ Hc))).
    repeat constructor; lia.
Defined.

(** C5.  A list whose items are neither all floats nor all ints, an
    array whose dtype is neither floating nor integer, and any object
    that is not a float, an int, a list or an array are each rejected
    with the [ValueError] of their branch; nothing is converted and no
    array is created. *)
Theorem C5_rejects_mixed_collections (n : Z) (h : heap) :
  (forall items,
      forallb is_float items = false -> forallb is_int items = false ->
      stability_selection_to_threshold (PyList items) n h
        = (Raise (ValueError msg_list), h))
  /\ (forall a b,
        h !! base a = Some b ->
        (forall d, b <> BFloat d) -> (forall d, b <> BInt d) ->
        stability_selection_to_threshold (PyArray a) n h
          = (Raise (ValueError msg_array), h))
  /\ stability_selection_to_threshold PyOther n h
       = (Raise (ValueError msg_valid), h).
Proof.
  split; [| split].
  - intros items Hf Hi. apply sstt_convert_raises.
    unfold convert. now rewrite Hf, Hi.
  - intros a b Hb Hnf Hni. apply sstt_convert_raises.
    unfold convert. rewrite (bind_ok _ _ _ _ _ (buffer_of_ok _ _ _ Hb)).
    destruct b as [d | d | d | k].
    + now destruct (Hnf d).
    + now destruct (Hni d).
    + reflexivity.
    + reflexivity.
  - reflexivity.
Qed.

Lemma C5_rejects_mixed_collections_witness :
  stability_selection_to_threshold
    (PyList [PyFloat (Float64.of_ratio 1 2); PyInt 3]) 10 []
    = (Raise (ValueError msg_list), [])
  /\ stability_selection_to_threshold
       (PyArray {| base := 0; shape := [2%nat] |}) 10 [BBool [true; false]]
       = (Raise (ValueError msg_array), [BBool [true; false]]).
Proof.
  split.
  - apply (proj1 (C5_rejects_mixed_collections 10 [])); reflexivity.
  - apply (proj1 (proj2 (C5_rejects_mixed_collections 10 [BBool [true; false]]))
             {| base := 0; shape := [2%nat] |} (BBool [true; false]));
      [reflexivity | discriminate | discriminate].
Defined.

(** C8.  The empty list passes the all-floats test, becomes an empty
    float64 array, and the bounds test holds of its (no) entries: the
    call returns the empty threshold sequence and raises nothing. *)
Theorem C8_empty_list (n : Z) (h : heap) :
  forallb is_float [] = true
  /\ bounds_ok [] n = true
  /\ (exists a h1,
        convert (PyList []) n h = (Ok a, h1) /\
        h1 !! base a = Some (BFloat []))
  /\ returned_ints (stability_selection_to_threshold (PyList []) n) h = Ok [].
Proof.
  repeat split.
  - pose proof (convert_float_list [] n h) as E. cbn [map length] in E.
    eexists _, _. split; [exact E |]. cbn [base].
    change (h ++ [BFloat []; BFloat []])
      with (h ++ [BFloat []] ++ [BFloat []]).
    rewrite app_assoc.
    replace (S (length h)) with (length (h ++ [BFloat []]))
      by (rewrite length_app; simpl; lia).
    apply lookup_fresh.
  - change (@nil pyobj) with (map PyFloat []).
    now rewrite returned_ints_float_list.
Qed.

(** ** Integers that binary64 holds exactly *)

Lemma digits2_pos_size p : digits2_pos p = Pos.size p.
Proof. induction p as [p IH | p IH |]; simpl; now rewrite ?IH. Qed.

Lemma digits2_pos_shift p d :
  digits2_pos (Pos.iter xO p d) = (digits2_pos p + d)%positive.
Proof.
  rewrite (Pos.iter_swap_gen _ _ digits2_pos xO Pos.succ) by reflexivity.
  induction d as [| d IH] using Pos.peano_ind.
  - simpl. now rewrite Pos.add_1_r.
  - rewrite Pos.iter_succ, IH. lia.
Qed.

Lemma Zpos_shift p d : Z.pos (Pos.iter xO p d) = Z.shiftl (Z.pos p) (Z.pos d).
Proof. now rewrite (Pos.iter_swap_gen _ _ Z.pos xO (Z.mul 2)). Qed.

Lemma digits2_pos_bound p :
  Z.pos p < 2 ^ 53 -> Z.pos (digits2_pos p) <= 53.
Proof.
  intros Hp. rewrite digits2_pos_size.
  pose proof (Pos.size_le p) as Hle.
  destruct (Z_le_gt_dec (Z.pos (Pos.size p)) 53) as [H | H]; [exact H |].
  exfalso.
  assert (H54 : 2 ^ 54 <= 2 ^ Z.pos (Pos.size p))
    by (apply Z.pow_le_mono_r; lia).
  assert (Hz : 2 ^ Z.pos (Pos.size p) <= 2 * Z.pos p).
  { change (2 * Z.pos p) with (Z.pos p~0).
    rewrite <- Pos2Z.inj_pow. apply Pos2Z.pos_le_pos. exact Hle. }
  lia.
Qed.

(** A mantissa of 53 digits with an exponent in range is already
    rounded. *)
Lemma shr_fexp_canonical m e :
  Z.pos (digits2_pos m) = 53 -> -1074 <= e ->
  shr_fexp Float64.prec Float64.emax (Z.pos m) e loc_Exact
    = ({| shr_m := Z.pos m; shr_r := false; shr_s := false |}, e).
Proof.
  intros Hd He. unfold shr_fexp, fexp, emin, Float64.prec, Float64.emax.
  cbn [Zdigits2]. rewrite Hd.
  replace (Z.max (53 + e - 53) (3 - 1024 - 53) - e) with 0 by lia.
  reflexivity.
Qed.

Lemma binary_round_aux_canonical s m e :
  Z.pos (digits2_pos m) = 53 -> -1074 <= e <= 971 ->
  binary_round_aux Float64.prec Float64.emax s (Z.pos m) e loc_Exact
    = S754_finite s m e.
Proof.
  intros Hd He. unfold binary_round_aux.
  rewrite shr_fexp_canonical by lia.
  cbn [shr_m loc_of_shr_record round_nearest_even].
  rewrite shr_fexp_canonical by lia. cbn [shr_m].
  unfold Float64.prec, Float64.emax.
  replace (e <=? 1024 - 53) with true by (symmetry; apply Z.leb_le; lia).
  reflexivity.
Qed.

Lemma of_Z_exact p :
  Z.pos p < 2 ^ 53 ->
  exists m e,
    Float64.of_Z (Z.pos p) = S754_finite false m e /\
    Z.pos (digits2_pos m) = 53 /\ -52 <= e <= 0 /\
    Z.shiftl (Z.pos m) e = Z.pos p.
Proof.
  intros Hp. pose proof (digits2_pos_bound p Hp) as Hd.
  unfold Float64.of_Z, binary_normalize, binary_round, shl_align, fexp, emin,
    Float64.prec, Float64.emax.
  replace (Z.max (Z.pos (digits2_pos p) + 0 - 53) (3 - 1024 - 53) - 0)
    with (Z.pos (digits2_pos p) - 53) by lia.
  replace (Z.max (Z.pos (digits2_pos p) + 0 - 53) (3 - 1024 - 53))
    with (Z.pos (digits2_pos p) - 53) by lia.
  destruct (Z.pos (digits2_pos p) - 53) as [| q | q] eqn:Eq; [| lia |].
  - exists p, 0. rewrite binary_round_aux_canonical by lia.
    repeat split; lia.
  - exists (Pos.iter xO p q), (Z.neg q).
    assert (Hq : Z.pos (digits2_pos (Pos.iter xO p q)) = 53)
      by (rewrite digits2_pos_shift; lia).
    rewrite binary_round_aux_canonical by lia.
    repeat split; try lia.
    rewrite Zpos_shift. change (Z.neg q) with (- Z.pos q).
    rewrite Z.shiftl_opp_r, Z.shiftr_shiftl_l by lia.
    now rewrite Z.sub_diag.
Qed.

(** Multiplying by [1.0] changes nothing. *)
Lemma mul_one_l m e :
  Z.pos (digits2_pos m) = 53 -> -1022 <= e <= 971 ->
  Float64.mul Float64.one (S754_finite false m e) = S754_finite false m e.
Proof.
  intros Hd He.
  assert (Hp : digits2_pos m = 53%positive) by congruence.
  change Float64.one with (S754_finite false 4503599627370496 (-52)).
  unfold Float64.mul, SFmul. cbn [xorb].
  change (4503599627370496 * m)%positive with (Pos.iter xO m 52).
  assert (Hs : SpecFloat.iter_pos shr_1 52
                 {| shr_m := Z.pos (Pos.iter xO m 52);
                    shr_r := false; shr_s := false |}
               = {| shr_m := Z.pos m; shr_r := false; shr_s := false |})
    by reflexivity.
  unfold binary_round_aux.
  unfold shr_fexp at 1. cbn [Zdigits2]. rewrite digits2_pos_shift, Hp.
  unfold fexp at 1. unfold emin, Float64.prec at 1 2, Float64.emax at 1.
  replace (Z.max (Z.pos (53 + 52) + (-52 + e) - 53) (3 - 1024 - 53) - (-52 + e))
    with 52 by lia.
  cbn [shr shr_record_of_loc]. rewrite Hs.
  cbn [shr_m loc_of_shr_record round_nearest_even].
  replace (-52 + e + 52) with e by lia.
  rewrite shr_fexp_canonical by lia. cbn [shr_m].
  unfold Float64.prec, Float64.emax.
  replace (e <=? 1024 - 53) with true by (symmetry; apply Z.leb_le; lia).
  reflexivity.
Qed.

(** [int(1.0 * n)] is [n] up to [2^53]. *)
Lemma trunc_one_mul n :
  0 < n <= 2 ^ 53 ->
  Float64.trunc (Float64.mul Float64.one (Float64.of_Z n)) = Some n.
Proof.
  intros Hn. destruct (Z.eq_dec n (2 ^ 53)) as [-> | Hne].
  { vm_compute. reflexivity. }
  destruct n as [| p | p]; try lia.
  destruct (of_Z_exact p ltac:(lia)) as (m & e & E & Hd & He & Hv).
  rewrite E, mul_one_l by lia. cbn [Float64.trunc cond_Zopp].
  now rewrite Hv.
Qed.

(** C9, as stated, fails: a scalar float is indeed never tested against
    the interval (0, 1), but [1.0] with [n_boots = 2^53 + 1] returns
    [2^53], the binary64 number nearest to [n_boots], not [n_boots]. *)
Lemma C9_counterexample :
  ~ (forall (n : Z) (h : heap),
        2 <= n ->
        returned_ints
          (stability_selection_to_threshold (PyFloat Float64.one) n) h
          = Ok [n]).
Proof.
  intros H. specialize (H (2 ^ 53 + 1) [] ltac:(lia)).
  vm_compute in H. discriminate.
Qed.

(** C9, amended.  A scalar float is classified by its type alone: for
    every [n_boots] from [2] to [2^53], the input [1.0] is scaled like any
    fraction and the call returns [n_boots]; no validation error is
    raised. *)
Theorem C9_one_is_accepted (n : Z) (h : heap) :
  2 <= n <= 2 ^ 53 ->
  returned_ints (stability_selection_to_threshold (PyFloat Float64.one) n) h
    = Ok [n].
Proof.
  intros Hn.
  assert (It : in_int64 n = true)
    by (apply in_int64_spec; unfold int64_min, int64_max; lia).
  erewrite returned_ints_after_convert;
    [| apply (convert_float_ok _ _ _ n); [apply trunc_one_mul; lia | exact It]
     | cbn [base]; apply lookup_fresh | reflexivity].
  replace (bounds_ok [n] n) with true; [reflexivity |].
  symmetry. apply bounds_ok_spec. repeat constructor; lia.
Qed.

Lemma C9_one_is_accepted_witness :
  returned_ints (stability_selection_to_threshold (PyFloat Float64.one) 10) []
    = Ok [10].
Proof. apply (C9_one_is_accepted 10 []). lia. Defined.

(** ** Frame: what a call leaves untouched *)

(** [frame k m]: running [m] changes none of the first [k] buffers of
    the heap and removes none. *)
Definition frame {A} (k : nat) (m : M A) : Prop :=
  forall h, (k <= length h)%nat ->
    take k (snd (m h)) = take k h /\ (k <= length (snd (m h)))%nat.

Lemma frame_ret {A} k (a : A) : frame k (ret a).
Proof. intros h Hk. now split. Qed.

Lemma frame_raise {A} k e : frame k (@raise A e).
Proof. intros h Hk. now split. Qed.

Lemma frame_bind_post {A B} k (m : M A) (f : A -> M B) (Q : A -> Prop) :
  frame k m ->
  (forall h a, (k <= length h)%nat -> fst (m h) = Ok a -> Q a) ->
  (forall a, Q a -> frame k (f a)) ->
  frame k (bind m f).
Proof.
  intros Hm HQ Hf h Hk. unfold bind.
  destruct (Hm h Hk) as [Ht Hl]. specialize (HQ h).
  destruct (m h) as [[a | e] h']; cbn [fst snd] in *.
  - destruct (Hf a (HQ a Hk eq_refl) h' Hl) as [Ht' Hl'].
    split; [congruence | exact Hl'].
  - now split.
Qed.

Lemma frame_bind {A B} k (m : M A) (f : A -> M B) :
  frame k m -> (forall a, frame k (f a)) -> frame k (bind m f).
Proof.
  intros Hm Hf. apply (frame_bind_post k m f (fun _ => True)); auto.
Qed.

Lemma frame_alloc k b sh : frame k (alloc b sh).
Proof.
  intros h Hk. unfold alloc. cbn [snd]. rewrite length_app.
  split; [now apply take_app_le | lia].
Qed.

Lemma alloc_fresh k b sh h a :
  (k <= length h)%nat -> fst (alloc b sh h) = Ok a -> (k <= base a)%nat.
Proof. unfold alloc. cbn [fst]. intros Hk E. inversion E. exact Hk. Qed.

Lemma frame_buffer_of k a : frame k (buffer_of a).
Proof.
  intros h Hk. unfold buffer_of. destruct (_ !! _); cbn [snd]; now split.
Qed.

Lemma frame_store k l b : (k <= l)%nat -> frame k (store l b).
Proof.
  intros Hl h Hk. unfold store. cbn [snd]. rewrite length_insert.
  split; [now apply take_insert_ge | exact Hk].
Qed.

(** The proof that a program built from [bind], [match] and the
    primitives is framed follows its syntax. *)
Ltac frame_tac :=
  repeat first
    [ apply frame_ret | apply frame_raise | apply frame_alloc
    | apply frame_buffer_of
    | apply frame_store; assumption
    | apply frame_bind; [| intros ?]
    | match goal with
      | |- frame _ (match ?x with _ => _ end) => destruct x
      | |- frame _ (if ?x then _ else _) => destruct x
      end
    | assumption ].

Lemma frame_float_of_int k n : frame k (float_of_int n).
Proof. unfold float_of_int. frame_tac. Qed.

Lemma frame_int_of_float k x : frame k (int_of_float x).
Proof. unfold int_of_float. frame_tac. Qed.

Lemma frame_np_array_ints k items : frame k (np_array_ints items).
Proof. unfold np_array_ints. frame_tac. Qed.

Lemma frame_np_mul_scalar k n a : frame k (np_mul_scalar n a).
Proof. unfold np_mul_scalar. frame_tac. Qed.

Lemma frame_astype_int k a : frame k (astype_int a).
Proof. unfold astype_int. frame_tac. Qed.

Lemma frame_ints_of k a : frame k (ints_of a).
Proof. unfold ints_of. frame_tac. Qed.

Lemma frame_np_all k a : frame k (np_all a).
Proof. unfold np_all. frame_tac. Qed.

Lemma frame_convert k ss n : frame k (convert ss n).
Proof.
  unfold convert, np_array_floats.
  destruct ss; frame_tac;
    first [ apply frame_float_of_int | apply frame_int_of_float
          | apply frame_np_array_ints | apply frame_np_mul_scalar ].
Qed.

Lemma frame_within_bounds k a n : frame k (within_bounds a n).
Proof.
  unfold within_bounds, np_le_scalar, np_gt_scalar.
  frame_tac; first [apply frame_ints_of | apply frame_np_all].
Qed.

Lemma frame_sstt k ss n : frame k (stability_selection_to_threshold ss n).
Proof.
  unfold stability_selection_to_threshold.
  frame_tac;
    first [ apply frame_convert | apply frame_astype_int
          | apply frame_within_bounds ].
Qed.

Lemma frame_np_count_nonzero_axis0 k a : frame k (np_count_nonzero_axis0 a).
Proof. unfold np_count_nonzero_axis0. frame_tac. Qed.

Lemma frame_threshold_support k coefs t : frame k (threshold_support coefs t).
Proof.
  unfold threshold_support, np_ge_scalar.
  frame_tac; first [apply frame_np_count_nonzero_axis0 | apply frame_ints_of].
Qed.

(** The only write in place: it is framed when its target lies beyond
    the first [k] buffers. *)
Lemma frame_setitem_slab k a i v :
  (k <= base a)%nat -> frame k (setitem_slab a i v).
Proof.
  intros Ha. unfold setitem_slab. frame_tac.
Qed.

Lemma frame_np_zeros_bool k dims : frame k (np_zeros_bool dims).
Proof. unfold np_zeros_bool. frame_tac. Qed.

Lemma np_zeros_bool_fresh k dims h a :
  (k <= length h)%nat -> fst (np_zeros_bool dims h) = Ok a ->
  (k <= base a)%nat.
Proof.
  unfold np_zeros_bool.
  destruct (existsb _ dims); [discriminate |].
  destruct (_ <=? _); [discriminate |]. apply alloc_fresh.
Qed.

Lemma frame_np_reshape k a dims : frame k (np_reshape a dims).
Proof.
  unfold np_reshape. frame_tac.
  all: match goal with
       | |- frame _ (match ?x with _ => _ end) => destruct x
       end; frame_tac.
Qed.

Lemma frame_np_squeeze k a : frame k (np_squeeze a).
Proof. apply frame_ret. Qed.

Lemma frame_shape_at k a i : frame k (shape_at a i).
Proof. unfold shape_at. frame_tac. Qed.

Lemma frame_index_of k legacy o : frame k (index_of legacy o).
Proof.
  unfold index_of. destruct o; frame_tac.
Qed.

Lemma frame_elements_of k o : frame k (elements_of o).
Proof.
  unfold elements_of. destruct o; frame_tac.
Qed.

Lemma frame_th_mul k o n : frame k (th_mul o n).
Proof.
  unfold th_mul. destruct o; frame_tac.
Qed.

Lemma frame_line_101 k legacy coefs t : frame k (line_101 legacy coefs t).
Proof.
  unfold line_101. destruct legacy;
    [apply frame_raise | apply frame_threshold_support].
Qed.

Lemma frame_intersection_loop k legacy coefs supports ts :
  (k <= base supports)%nat ->
  forall idx, frame k (intersection_loop legacy coefs supports idx ts).
Proof.
  intros Hs. induction ts as [| t ts IH]; intros idx; cbn [intersection_loop].
  - apply frame_ret.
  - apply frame_bind; [apply frame_line_101 | intros support].
    apply frame_bind; [now apply frame_setitem_slab | intros _].
    apply IH.
Qed.

Lemma frame_intersection k legacy coefs th :
  frame k (intersection legacy coefs th).
Proof.
  unfold intersection.
  apply frame_bind; [apply frame_shape_at | intros n_reg_params].
  apply frame_bind; [apply frame_shape_at | intros n_features].
  apply frame_bind; [apply frame_index_of | intros d0].
  apply (frame_bind_post k _ _ (fun a => (k <= base a)%nat));
    [apply frame_np_zeros_bool | intros h a; apply np_zeros_bool_fresh |].
  intros supports Hs.
  apply frame_bind; [apply frame_elements_of | intros ts].
  apply frame_bind; [now apply frame_intersection_loop | intros _].
  apply frame_bind; [apply frame_th_mul | intros rows].
  apply frame_bind; [apply frame_index_of | intros d].
  apply frame_bind; [apply frame_np_reshape | intros flat].
  apply frame_np_squeeze.
Qed.

Lemma frame_lookup {A} (m : M A) h l b :
  frame (length h) m -> h !! l = Some b -> snd (m h) !! l = Some b.
Proof.
  intros Hf Hl. destruct (Hf h (Nat.le_refl _)) as [Ht _].
  rewrite firstn_all in Ht.
  rewrite <- (take_drop (length h) (snd (m h))), Ht.
  now apply lookup_app_l_Some.
Qed.

(** C6.  Neither function changes an array it was given: whatever the
    call does (return or raise), every buffer of the heap it started from,
    in particular the coefficient tensor and an array passed as
    [stability_selection] or as thresholds, holds the same data
    afterwards. *)
Theorem C6_inputs_not_mutated (h : heap) (l : nat) (b : buffer) :
  h !! l = Some b ->
  (forall ss n, snd (stability_selection_to_threshold ss n h) !! l = Some b)
  /\ (forall legacy coefs th, snd (intersection legacy coefs th h) !! l = Some b).
Proof.
  intros Hl. split.
  - intros ss n. apply frame_lookup; [apply frame_sstt | exact Hl].
  - intros legacy coefs th.
    apply frame_lookup; [apply frame_intersection | exact Hl].
Qed.

Lemma C6_inputs_not_mutated_witness :
  snd (intersection true example_coefs (ThArray example_threshold)
         example_heap) !! 0%nat = Some (BFloat example_tensor)
  /\ snd (stability_selection_to_threshold (PyArray example_two_thresholds) 10
            example_heap) !! 2%nat = Some (BInt [4; 3]).
Proof.
  split.
  - apply (proj2 (C6_inputs_not_mutated example_heap 0
                    (BFloat example_tensor) eq_refl)).
  - apply (proj1 (C6_inputs_not_mutated example_heap 2
                    (BInt [4; 3]) eq_refl)).
Defined.

(** ** Claims about [intersection] *)

Lemma np_count_nonzero_axis0_ok a h b nb rest flags :
  h !! base a = Some b -> shape a = nb :: rest ->
  nonzero_flags b = Some flags ->
  np_count_nonzero_axis0 a h =
    (Ok {| base := length h; shape := rest |},
     h ++ [BInt (count_axis0 nb (size_of rest) flags)]).
Proof.
  intros Hb Hs Hf. unfold np_count_nonzero_axis0.
  rewrite (bind_ok _ _ _ _ _ (buffer_of_ok _ _ _ Hb)).
  now rewrite Hs, Hf.
Qed.

(** What line 101 computes, when it computes anything. *)
Lemma threshold_support_run coefs t h b nb rest flags :
  h !! base coefs = Some b -> shape coefs = nb :: rest ->
  nonzero_flags b = Some flags ->
  returned_bools (threshold_support coefs t) h =
    Ok (rest, map (fun c => t <=? c) (count_axis0 nb (size_of rest) flags)).
Proof.
  intros Hb Hs Hf. unfold returned_bools, threshold_support.
  rewrite (bind_ok _ _ _ _ _
    (np_count_nonzero_axis0_ok _ _ _ _ _ _ Hb Hs Hf)).
  rewrite np_ge_scalar_ok with (d := count_axis0 nb (size_of rest) flags)
    by (cbn [base]; apply lookup_fresh).
  cbn [base shape]. now rewrite lookup_fresh.
Qed.

Lemma threshold_support_inv coefs t h r :
  returned_bools (threshold_support coefs t) h = Ok r ->
  exists b nb rest flags,
    h !! base coefs = Some b /\ shape coefs = nb :: rest /\
    nonzero_flags b = Some flags.
Proof.
  unfold returned_bools, threshold_support, np_count_nonzero_axis0.
  unfold bind at 1 2, buffer_of.
  destruct (h !! base coefs) as [b |] eqn:Hb; [| discriminate].
  destruct (shape coefs) as [| nb rest] eqn:Hs; [discriminate |].
  destruct (nonzero_flags b) as [flags |] eqn:Hf; [| discriminate].
  intros _. eauto 8.
Qed.

(** ** Line 101 against the specification *)

Lemma count_column_spec nb nl nf flags l f :
  count_column nb (nl * nf) flags (l * nf + f) =
  Z.of_nat (length (filter
    (fun b => flags !! (b * (nl * nf) + l * nf + f)%nat = Some true)
    (seq 0 nb))).
Proof.
  unfold count_column. do 2 f_equal.
  apply list_filter_iff. intros b. now rewrite Nat.add_assoc.
Qed.

Lemma flat_map_rows {A} (g : nat -> A) nl nf :
  flat_map (fun l => map (fun f => g (l * nf + f)%nat) (seq 0 nf)) (seq 0 nl)
  = map g (seq 0 (nl * nf)).
Proof.
  induction nl as [| nl IH]; [reflexivity |].
  rewrite seq_S, flat_map_app, IH. cbn [flat_map Nat.add].
  rewrite app_nil_r.
  replace (S nl * nf)%nat with (nl * nf + nf)%nat by lia.
  rewrite seq_app, map_app. f_equal. cbn [Nat.add].
  replace (seq (nl * nf) nf)
    with ((fun x => nl * nf + x)%nat <$> seq 0 nf)
    by (rewrite fmap_add_seq; f_equal; lia).
  now rewrite <- list_fmap_compose.
Qed.

(** For a tensor with three axes, what line 101 computes for one
    threshold is the support set of the specification. *)
Lemma threshold_support_spec coefs t h b nb nl nf flags :
  h !! base coefs = Some b -> shape coefs = [nb; nl; nf] ->
  nonzero_flags b = Some flags ->
  returned_bools (threshold_support coefs t) h =
    Ok ([nl; nf], spec_support nb nl nf flags t).
Proof.
  intros Hb Hs Hf.
  rewrite (threshold_support_run _ _ _ _ _ _ _ Hb Hs Hf).
  do 2 f_equal. unfold spec_support, count_axis0.
  cbn [size_of foldr]. rewrite Nat.mul_1_r, map_map.
  rewrite <- (flat_map_rows
    (fun j => t <=? count_column nb (nl * nf) flags j) nl nf).
  apply flat_map_ext. intros l. apply map_ext. intros f.
  now rewrite count_column_spec.
Qed.

(** A list of thresholds is rejected whatever its length. *)
Lemma intersection_list_raises legacy coefs ts h nb nl nf :
  shape coefs = [nb; nl; nf] ->
  intersection legacy coefs (ThList ts) h =
    (Raise (TypeError
       "'list' object cannot be interpreted as an integer"%string), h).
Proof.
  intros Hs. unfold intersection, shape_at. now rewrite Hs.
Qed.

(** C10.  The support computed for one threshold, [count_nonzero(coefs,
    axis=0) >= threshold], is antitone in the threshold: whenever it is
    computed for [t2] and an entry is [True], it is computed for every
    [t1 <= t2] too, with the same shape, and that entry is [True]. *)
Theorem C10_support_antitone (coefs : ndarray) (h : heap) (t1 t2 : Z)
    (sh : list nat) (d2 : list bool) :
  t1 <= t2 ->
  returned_bools (threshold_support coefs t2) h = Ok (sh, d2) ->
  exists d1,
    returned_bools (threshold_support coefs t1) h = Ok (sh, d1) /\
    forall j, d2 !! j = Some true -> d1 !! j = Some true.
Proof.
  intros Ht H2.
  destruct (threshold_support_inv _ _ _ _ H2)
    as (b & nb & rest & flags & Hb & Hs & Hf).
  rewrite (threshold_support_run _ _ _ _ _ _ _ Hb Hs Hf) in H2.
  injection H2 as Hsh Hd2. subst sh d2.
  eexists. split; [apply (threshold_support_run _ _ _ _ _ _ _ Hb Hs Hf) |].
  intros j. rewrite !list_lookup_fmap.
  destruct (count_axis0 nb (size_of rest) flags !! j) as [c |];
    cbn; [| discriminate].
  intros [= E']. apply Z.leb_le in E'. f_equal. apply Z.leb_le. lia.
Qed.

Lemma C10_support_antitone_witness :
  exists d1,
    returned_bools (threshold_support example_coefs 3) example_heap
      = Ok ([1; 3]%nat, d1) /\
    forall j, [true; false; false] !! j = Some true -> d1 !! j = Some true.
Proof.
  apply (C10_support_antitone example_coefs example_heap 3 4).
  - lia.
  - vm_compute. reflexivity.
Defined.

(** C1 fails on the code (the shape of [supports] is built from the
    threshold sequence itself, line 89, instead of its length).  On the
    tensor of the worked example the specified support for threshold 4 is
    [True, False, False], but [intersection(tensor, [4])] raises a
    [TypeError] in [np.zeros] when the thresholds are a list; when they
    are a one-entry array it raises the same way, or, on a numpy before
    1.12 that still converts such an array to an index, builds a
    (4, 1, 3) array of [False] and raises a [TypeError] on line 101. *)
Theorem C1_intersection_example :
  spec_support 5 1 3 (map Float64.is_nonzero example_tensor) 4
    = [true; false; false]
  /\ (forall legacy,
        returned_bools (intersection legacy example_coefs (ThList [4]))
          example_heap
        = Raise (TypeError
            "'list' object cannot be interpreted as an integer"%string))
  /\ returned_bools
       (intersection false example_coefs (ThArray example_threshold))
       example_heap
     = Raise (TypeError
         "only integer scalar arrays can be converted to a scalar index"%string)
  /\ intersection true example_coefs (ThArray example_threshold) example_heap
     = (Raise (TypeError "count_nonzero() takes no keyword arguments"%string),
        example_heap ++ [BBool (replicate 12 false)]).
Proof.
  split; [vm_compute; reflexivity |].
  split; [intros []; vm_compute; reflexivity |].
  split; vm_compute; reflexivity.
Qed.

(** Neither a list nor an array with two or more entries converts to an
    index, whatever the numpy release. *)
Lemma index_of_raises legacy th h :
  two_or_more h th ->
  exists msg, index_of legacy th h = (Raise (TypeError msg), h).
Proof.
  destruct th as [ts | a]; cbn [two_or_more].
  - intros _. eexists. reflexivity.
  - intros (d & Hd & Hlen). unfold index_of.
    rewrite (bind_ok _ _ _ _ _ (buffer_of_ok _ _ _ Hd)).
    destruct d as [| v [| w d]]; cbn [length] in Hlen; try lia.
    eexists. reflexivity.
Qed.

(** C2 fails on the code: for a coefficient tensor with three axes and
    any threshold sequence with two or more entries, list or array,
    [intersection] does not return; it raises a [TypeError] while building
    the shape of [supports], before any array is created. *)
Theorem C2_intersection_raises (legacy : bool) (coefs : ndarray)
    (th : thresholds) (h : heap) (nb nl nf : nat) :
  shape coefs = [nb; nl; nf] ->
  two_or_more h th ->
  exists msg, intersection legacy coefs th h = (Raise (TypeError msg), h).
Proof.
  intros Hs Hth. destruct (index_of_raises legacy th h Hth) as [msg E].
  exists msg. unfold intersection, shape_at. rewrite Hs.
  cbn [lookup list_lookup]. unfold bind at 1 2, ret at 1 2.
  now rewrite (bind_raise _ _ _ _ _ E).
Qed.

Lemma C2_intersection_raises_witness :
  (exists msg,
      intersection true example_coefs (ThArray example_two_thresholds)
        example_heap = (Raise (TypeError msg), example_heap))
  /\ (exists msg,
        intersection false example_coefs (ThList [4; 3]) example_heap
          = (Raise (TypeError msg), example_heap)).
Proof.
  split.
  - apply (C2_intersection_raises true example_coefs
             (ThArray example_two_thresholds) example_heap 5 1 3 eq_refl).
    exists [4; 3]. split; [reflexivity | cbn; lia].
  - apply (C2_intersection_raises false example_coefs (ThList [4; 3])
             example_heap 5 1 3 eq_refl).
    cbn. lia.
Defined.

(** ** The Poisson solver before [fit] *)

(** C7.  On a solver on which [fit] has not completed, [predict] and
    [predict_mean] both fail with the not-fitted error; neither returns a
    value. *)
Theorem C7_predict_requires_fit
    (conditional_mean : list float -> float -> list (list float) -> list float)
    (round_count : float -> float)
    (s : Poisson.state) (X : list (list float)) :
  Poisson.fit_completed s = false ->
  Poisson.predict conditional_mean round_count s X = Raise NotFittedError
  /\ Poisson.predict_mean conditional_mean s X = Raise NotFittedError
  /\ (forall y, Poisson.predict conditional_mean round_count s X <> Ok y)
  /\ (forall y, Poisson.predict_mean conditional_mean s X <> Ok y).
Proof.
  intros Hs.
  destruct s as [| | coef_ intercept_]; [| | discriminate];
    repeat split; try reflexivity; intros y; discriminate.
Qed.

Lemma C7_predict_requires_fit_witness :
  Poisson.predict (fun _ _ _ => []) (fun x => x) Poisson.new
    [[Float64.one]] = Raise NotFittedError
  /\ Poisson.predict_mean (fun _ _ _ => []) Poisson.Fitting
       [[Float64.one]] = Raise NotFittedError.
Proof.
  split.
  - apply (C7_predict_requires_fit (fun _ _ _ => []) (fun x => x)
             Poisson.new [[Float64.one]] eq_refl).
  - apply (C7_predict_requires_fit (fun _ _ _ => []) (fun x => x)
             Poisson.Fitting [[Float64.one]] eq_refl).
Defined.

(** * Further properties of [stability_selection_to_threshold] *)

Lemma frame_length {A} (m : M A) h :
  frame (length h) m -> (length h <= length (snd (m h)))%nat.
Proof. intros Hf. now destruct (Hf h (Nat.le_refl _)). Qed.

(** Every way the call can return: the dispatch produced an array [c],
    its entries were converted to the integers [ths], they passed the
    bounds test, and the result is the array made by [astype]. *)
Lemma sstt_returns_inv ss n h a h' :
  stability_selection_to_threshold ss n h = (Ok a, h') ->
  exists c h1 b ths ext,
    convert ss n h = (Ok c, h1) /\ h1 !! base c = Some b /\
    int_entries b = Some ths /\ bounds_ok ths n = true /\
    a = {| base := length h1; shape := shape c |} /\
    h' = h1 ++ BInt ths :: ext.
Proof.
  intros E.
  destruct (convert ss n h) as [[c | e] h1] eqn:Ec.
  2: { rewrite (sstt_convert_raises _ _ _ _ _ Ec) in E. discriminate. }
  destruct (h1 !! base c) as [b |] eqn:Hb.
  2: { revert E. unfold stability_selection_to_threshold.
       rewrite (bind_ok _ _ _ _ _ Ec). unfold astype_int, buffer_of.
       unfold bind at 1 2. rewrite Hb. discriminate. }
  destruct (int_entries b) as [ths |] eqn:Hd.
  2: { revert E. unfold stability_selection_to_threshold.
       rewrite (bind_ok _ _ _ _ _ Ec). unfold astype_int.
       unfold bind at 1.
       rewrite (bind_ok _ _ _ _ _ (buffer_of_ok _ _ _ Hb)).
       destruct b; try discriminate. }
  destruct (sstt_after_convert _ _ _ _ _ _ _ Ec Hb Hd) as [ext E'].
  rewrite E' in E. destruct (bounds_ok ths n) eqn:B; [| discriminate].
  injection E as <- <-. exists c, h1, b, ths, ext. auto 10.
Qed.

Lemma sstt_returned_entries ss n h a h' :
  stability_selection_to_threshold ss n h = (Ok a, h') ->
  exists ths,
    h' !! base a = Some (BInt ths) /\ bounds_ok ths n = true /\
    (length h <= base a)%nat.
Proof.
  intros E.
  destruct (sstt_returns_inv _ _ _ _ _ E)
    as (c & h1 & b & ths & ext & Ec & Hb & Hd & B & -> & ->).
  exists ths. cbn [base]. split; [apply lookup_fresh |]. split; [exact B |].
  pose proof (frame_length (convert ss n) h (frame_convert _ _ _)) as Hl.
  now rewrite Ec in Hl.
Qed.

Lemma returned_ints_inv m h ths :
  returned_ints m h = Ok ths ->
  exists a h', m h = (Ok a, h') /\ h' !! base a = Some (BInt ths).
Proof.
  unfold returned_ints. destruct (m h) as [[a | e] h']; [| discriminate].
  destruct (h' !! base a) as [[d | d | d | k] |] eqn:Ha; try discriminate.
  intros [= ->]. now exists a, h'.
Qed.

(** X1.  Whatever the input, a sequence the call returns satisfies the
    bounds: every threshold [t] has [1 < t <= n_boots].  Hence with
    [n_boots < 2] only the empty sequence can be returned. *)
Theorem X1_returned_thresholds_within_bounds (ss : pyobj) (n : Z) (h : heap)
    (ths : list Z) :
  returned_ints (stability_selection_to_threshold ss n) h = Ok ths ->
  Forall (fun t => 1 < t <= n) ths /\ (n < 2 -> ths = []).
Proof.
  intros R. destruct (returned_ints_inv _ _ _ R) as (a & h' & E & Ha).
  destruct (sstt_returned_entries _ _ _ _ _ E) as (ths' & Ha' & B & _).
  rewrite Ha in Ha'. injection Ha' as <-.
  apply bounds_ok_spec in B. split; [exact B |].
  intros Hn. destruct B as [| t l Ht _]; [reflexivity | lia].
Qed.

Lemma X1_returned_thresholds_within_bounds_witness :
  Forall (fun t => 1 < t <= 10) [5; 9] /\ (10 < 2 -> [5; 9] = []).
Proof.
  apply (X1_returned_thresholds_within_bounds
           (PyList [PyInt 5; PyInt 9]) 10 []).
  vm_compute. reflexivity.
Defined.

Lemma convert_array_shape a0 n h c h1 :
  convert (PyArray a0) n h = (Ok c, h1) -> shape c = shape a0.
Proof.
  unfold convert, buffer_of. unfold bind at 1.
  destruct (h !! base a0) as [b |] eqn:Hb; [| discriminate].
  destruct b as [d | d | d | k]; try discriminate.
  - unfold np_mul_scalar.
    rewrite (bind_ok _ _ _ _ _ (buffer_of_ok _ _ _ Hb)).
    unfold alloc. now intros [= <- _].
  - unfold ret. now intros [= <- _].
Qed.

(** X2.  The array the call returns is always a new int64 array: its
    buffer did not exist before the call, also when the input is an
    integer array (which line 56 only aliases, the copy being made by
    [astype] on line 68).  For an array input the result has the shape of
    the input. *)
Theorem X2_result_is_a_new_array (ss : pyobj) (n : Z) (h h' : heap)
    (a : ndarray) :
  stability_selection_to_threshold ss n h = (Ok a, h') ->
  (length h <= base a)%nat
  /\ h !! base a = None
  /\ (exists ths, h' !! base a = Some (BInt ths))
  /\ (forall a0, ss = PyArray a0 -> shape a = shape a0 /\ base a <> base a0).
Proof.
  intros E.
  destruct (sstt_returned_entries _ _ _ _ _ E) as (ths & Ha & _ & Hl).
  split; [exact Hl |]. split; [now apply lookup_ge_None |].
  split; [eauto |].
  intros a0 ->.
  destruct (sstt_returns_inv _ _ _ _ _ E)
    as (c & h1 & b & ths' & ext & Ec & Hb & Hd & B & -> & ->).
  cbn [base shape] in *. split; [exact (convert_array_shape _ _ _ _ _ Ec) |].
  intros Heq. revert Ec. unfold convert, buffer_of. unfold bind at 1.
  destruct (h !! base a0) as [b0 |] eqn:Hb0; [| discriminate].
  apply lookup_lt_Some in Hb0. lia.
Qed.

Lemma X2_result_is_a_new_array_witness :
  (3 <= 3)%nat
  /\ example_heap !! 3%nat = None
  /\ (exists ths,
        (example_heap ++ [BInt [4; 3]; BBool [true; true]; BBool [true; true]])
          !! 3%nat = Some (BInt ths))
  /\ (forall a0, PyArray example_two_thresholds = PyArray a0 ->
        [2%nat] = shape a0 /\ 3%nat <> base a0).
Proof.
  apply (X2_result_is_a_new_array (PyArray example_two_thresholds) 10
           example_heap _ {| base := 3; shape := [2%nat] |}).
  vm_compute. reflexivity.
Defined.

Lemma int_values_ints zs : int_values (map PyInt zs) = zs.
Proof.
  unfold int_values. induction zs as [| z zs IH]; [reflexivity |].
  cbn. now rewrite IH.
Qed.

Lemma convert_int_list zs n h :
  zs <> [] -> forallb in_int64 zs = true ->
  convert (PyList (map PyInt zs)) n h =
    (Ok {| base := length h; shape := [length zs] |}, h ++ [BInt zs]).
Proof.
  intros Hne Hr. destruct zs as [| z zs]; [congruence |].
  unfold convert. cbn [map forallb is_float is_int].
  replace (forallb is_int (map PyInt zs)) with true
    by (clear; induction zs; [reflexivity | assumption]).
  unfold np_array_ints. cbn [forallb is_bool andb].
  change (PyInt z :: map PyInt zs) with (map PyInt (z :: zs)).
  now rewrite int_values_ints, Hr, length_map.
Qed.

(** X3.  Counts pass through unchanged.  An int, a list of ints or an
    integer array (entries within the int64 range) is returned entry for
    entry when every entry lies within the bounds, and rejected with the
    bounds error otherwise; nothing is scaled or rounded.  A [bool], being
    an [int] of value 0 or 1, is always rejected. *)
Theorem X3_counts_pass_through (n : Z) (h : heap) :
  let outcome ths :=
    if bounds_ok ths n then Ok ths else Raise (ValueError msg_bounds) in
  (forall z, in_int64 z = true ->
     returned_ints (stability_selection_to_threshold (PyInt z) n) h
       = outcome [z])
  /\ (forall b,
        returned_ints (stability_selection_to_threshold (PyBool b) n) h
          = Raise (ValueError msg_bounds))
  /\ (forall zs, forallb in_int64 zs = true ->
        returned_ints
          (stability_selection_to_threshold (PyList (map PyInt zs)) n) h
          = outcome zs)
  /\ (forall a d, h !! base a = Some (BInt d) ->
        returned_ints (stability_selection_to_threshold (PyArray a) n) h
          = outcome d).
Proof.
  intros outcome. subst outcome. cbv beta. split; [| split; [| split]].
  - intros z Hz.
    eapply returned_ints_after_convert;
      [ unfold convert; rewrite np_array_ints_single, Hz; reflexivity
      | cbn [base]; apply lookup_fresh | reflexivity ].
  - intros b.
    erewrite returned_ints_after_convert;
      [ | unfold convert; rewrite np_array_ints_single;
          replace (in_int64 (Z.b2z b)) with true by (now destruct b);
          reflexivity
        | cbn [base]; apply lookup_fresh | reflexivity ].
    unfold bounds_ok. cbn [forallb]. destruct b; cbn [Z.b2z].
    + now rewrite andb_false_r.
    + now rewrite andb_false_r.
  - intros zs Hz. destruct zs as [| z zs].
    + change (map PyInt []) with (map PyFloat []).
      now rewrite returned_ints_float_list.
    + eapply returned_ints_after_convert;
        [ apply convert_int_list; [discriminate | exact Hz]
        | cbn [base]; apply lookup_fresh | reflexivity ].
  - intros a d Hd.
    eapply returned_ints_after_convert;
      [ unfold convert;
        rewrite (bind_ok _ _ _ _ _ (buffer_of_ok _ _ _ Hd)); reflexivity
      | exact Hd | reflexivity ].
Qed.

Lemma X3_counts_pass_through_witness :
  returned_ints (stability_selection_to_threshold (PyInt 7) 10) [] = Ok [7]
  /\ returned_ints
       (stability_selection_to_threshold (PyList (map PyInt [3; 12])) 10) []
       = Raise (ValueError msg_bounds)
  /\ returned_ints
       (stability_selection_to_threshold (PyArray example_two_thresholds) 10)
       example_heap = Ok [4; 3].
Proof.
  split; [| split].
  - apply (proj1 (X3_counts_pass_through 10 []) 7). reflexivity.
  - apply (proj1 (proj2 (proj2 (X3_counts_pass_through 10 []))) [3; 12]).
    reflexivity.
  - apply (proj2 (proj2 (proj2 (X3_counts_pass_through 10 example_heap)))
             example_two_thresholds [4; 3]).
    reflexivity.
Defined.

(** Binary64 multiplication is commutative. *)
Lemma mul_comm x y : Float64.mul x y = Float64.mul y x.
Proof.
  unfold Float64.mul, SFmul.
  destruct x as [sx | sx | | sx mx ex], y as [sy | sy | | sy my ey];
    try reflexivity; try (now rewrite xorb_comm).
  now rewrite xorb_comm, Pos.mul_comm, Z.add_comm.
Qed.

Lemma cast_int64_in_range y : in_int64 (cast_int64 y) = true.
Proof.
  unfold cast_int64. destruct (Float64.trunc y) as [z |]; [| reflexivity].
  destruct (in_int64 z) eqn:E; [exact E | reflexivity].
Qed.

(** X4.  A single fraction and the one-element list holding it resolve
    to the same threshold: one call returns a sequence exactly when the
    other does, and it is the same sequence (the scalar path multiplies
    and truncates in Python, the list path in numpy). *)
Theorem X4_scalar_and_singleton_agree (x : float) (n : Z) (h : heap)
    (r : list Z) :
  returned_ints (stability_selection_to_threshold (PyFloat x) n) h = Ok r
  <-> returned_ints
        (stability_selection_to_threshold (PyList [PyFloat x]) n) h = Ok r.
Proof.
  change [PyFloat x] with (map PyFloat [x]).
  rewrite returned_ints_float_list. cbv zeta. cbn [map].
  rewrite <- (mul_comm x).
  destruct (convert_float_cases x n h) as [(t & Et & It & E) | [e E]].
  - erewrite returned_ints_after_convert;
      [| exact E | cbn [base]; apply lookup_fresh | reflexivity].
    now rewrite (cast_int64_trunc _ _ Et It).
  - unfold returned_ints at 1. rewrite (sstt_convert_raises _ _ _ _ _ E).
    split; [discriminate |].
    destruct (bounds_ok _ n) eqn:B; [| discriminate]. exfalso.
    apply bounds_ok_spec in B. inversion B as [| t l Ht _]; subst.
    assert (Et : Float64.trunc (Float64.mul x (Float64.of_Z n))
                 = Some (cast_int64 (Float64.mul x (Float64.of_Z n))))
      by (apply cast_int64_gt; lia).
    pose proof (convert_float_ok x n h _ Et (cast_int64_in_range _)) as E'.
    rewrite E' in E. discriminate.
Qed.

(** X5.  Resolving is idempotent on arrays: when the returned array has
    at least one axis, passing it again as [stability_selection] with the
    same [n_boots] is accepted and gives the same thresholds.  (A result
    of ndim 0 may be a numpy scalar, which is no [ndarray].) *)
Theorem X5_resolving_twice (ss : pyobj) (n : Z) (h h' : heap) (a : ndarray) :
  stability_selection_to_threshold ss n h = (Ok a, h') ->
  shape a <> [] ->
  exists ths,
    returned_ints (stability_selection_to_threshold ss n) h = Ok ths /\
    returned_ints (stability_selection_to_threshold (PyArray a) n) h'
      = Ok ths.
Proof.
  intros E _.
  destruct (sstt_returned_entries _ _ _ _ _ E) as (ths & Ha & B & _).
  exists ths. split.
  - unfold returned_ints. now rewrite E, Ha.
  - erewrite returned_ints_after_convert;
      [ | unfold convert;
          rewrite (bind_ok _ _ _ _ _ (buffer_of_ok _ _ _ Ha)); reflexivity
        | exact Ha | reflexivity ].
    now rewrite B.
Qed.

Lemma X5_resolving_twice_witness :
  exists ths,
    returned_ints
      (stability_selection_to_threshold (PyFloat (Float64.of_ratio 9 10)) 10)
      [] = Ok ths /\
    returned_ints
      (stability_selection_to_threshold
         (PyArray {| base := 1; shape := [1%nat] |}) 10)
      [BInt [9]; BInt [9]; BBool [true]; BBool [true]] = Ok ths.
Proof.
  apply (X5_resolving_twice (PyFloat (Float64.of_ratio 9 10)) 10 []).
  - vm_compute. reflexivity.
  - discriminate.
Defined.

Lemma bounds_ok_mono ths n n' :
  n <= n' -> bounds_ok ths n = true -> bounds_ok ths n' = true.
Proof.
  intros Hn. rewrite !bounds_ok_spec. intros H.
  eapply Forall_impl; [exact H |]. intros t. cbv beta. lia.
Qed.

Lemma convert_count_input ss h n n' :
  is_count_input h ss -> convert ss n h = convert ss n' h.
Proof.
  destruct ss as [x | z | b | items | a |]; cbn [is_count_input];
    try contradiction; try reflexivity.
  - intros Hf. unfold convert. now rewrite Hf.
  - intros (d & Hd). unfold convert.
    now rewrite !(bind_ok _ _ _ _ _ (buffer_of_ok _ _ _ Hd)).
Qed.

(** X6.  Thresholds given as counts stay valid when more bootstraps are
    run: if an int, a list of ints or an integer array is accepted for
    [n_boots], it is accepted, with the same thresholds, for every larger
    [n_boots]. *)
Theorem X6_counts_survive_more_bootstraps (ss : pyobj) (n n' : Z) (h : heap)
    (ths : list Z) :
  is_count_input h ss -> n <= n' ->
  returned_ints (stability_selection_to_threshold ss n) h = Ok ths ->
  returned_ints (stability_selection_to_threshold ss n') h = Ok ths.
Proof.
  intros Hc Hn R. destruct (returned_ints_inv _ _ _ R) as (a & h' & E & Ha).
  destruct (sstt_returns_inv _ _ _ _ _ E)
    as (c & h1 & b & ths' & ext & Ec & Hb & Hd & B & -> & ->).
  cbn [base] in Ha. rewrite lookup_fresh in Ha. injection Ha as ->.
  rewrite (convert_count_input ss h n n' Hc) in Ec.
  rewrite (returned_ints_after_convert _ _ _ _ _ _ _ Ec Hb Hd).
  now rewrite (bounds_ok_mono _ _ _ Hn B).
Qed.

Lemma X6_counts_survive_more_bootstraps_witness :
  returned_ints
    (stability_selection_to_threshold (PyList [PyInt 5; PyInt 9]) 48) []
    = Ok [5; 9].
Proof.
  apply (X6_counts_survive_more_bootstraps (PyList [PyInt 5; PyInt 9]) 10 48).
  - reflexivity.
  - lia.
  - vm_compute. reflexivity.
Defined.

(** X7.  A scalar float that is not finite never reaches the bounds
    test: for [n_boots] from 1 to [2^53 - 1], NaN raises the [ValueError]
    of [int()] and an infinity its [OverflowError]; no array is
    created. *)
Theorem X7_nonfinite_scalars (n : Z) (h : heap) :
  0 < n < 2 ^ 53 ->
  stability_selection_to_threshold (PyFloat S754_nan) n h
    = (Raise (ValueError "cannot convert float NaN to integer"%string), h)
  /\ (forall s,
        stability_selection_to_threshold (PyFloat (S754_infinity s)) n h
          = (Raise (OverflowError
               "cannot convert float infinity to integer"%string), h)).
Proof.
  intros Hn. destruct n as [| p | p]; try lia.
  destruct (of_Z_exact p ltac:(lia)) as (m & e & E & _).
  split; [| intros s]; apply sstt_convert_raises;
    rewrite convert_float_run, E; reflexivity.
Qed.

Lemma X7_nonfinite_scalars_witness :
  stability_selection_to_threshold (PyFloat S754_nan) 10 []
    = (Raise (ValueError "cannot convert float NaN to integer"%string), []).
Proof. apply (X7_nonfinite_scalars 10 []). lia. Defined.

(** * Further properties of [intersection] *)

(** X8.  A coefficient array with fewer than three axes is rejected
    first: [coefs.shape[1]] or [coefs.shape[2]] raises [IndexError],
    whatever the thresholds, and nothing is allocated. *)
Theorem X8_intersection_needs_three_axes (legacy : bool) (coefs : ndarray)
    (th : thresholds) (h : heap) :
  (length (shape coefs) < 3)%nat ->
  intersection legacy coefs th h
    = (Raise (IndexError "tuple index out of range"%string), h).
Proof.
  intros Hl. unfold intersection, shape_at.
  destruct (shape coefs) as [| n0 [| n1 [| n2 rest]]]; cbn [length] in Hl;
    try reflexivity.
  lia.
Qed.

Lemma X8_intersection_needs_three_axes_witness :
  intersection true {| base := 0; shape := [5; 3]%nat |}
    (ThArray example_threshold) example_heap
    = (Raise (IndexError "tuple index out of range"%string), example_heap).
Proof.
  apply (X8_intersection_needs_three_axes true
           {| base := 0; shape := [5; 3]%nat |}).
  cbn. lia.
Defined.


Lemma support_data_spec nb nl nf flags t :
  map (fun c => t <=? c) (count_axis0 nb (size_of [nl; nf]) flags)
    = spec_support nb nl nf flags t.
Proof.
  unfold spec_support, count_axis0.
  cbn [size_of foldr]. rewrite Nat.mul_1_r, map_map.
  rewrite <- (flat_map_rows
    (fun j => t <=? count_column nb (nl * nf) flags j) nl nf).
  apply flat_map_ext. intros l. apply map_ext. intros f.
  now rewrite count_column_spec.
Qed.

Lemma np_zeros_bool_grows dims h supports h1 :
  np_zeros_bool dims h = (Ok supports, h1) -> exists z, h1 = h ++ [z].
Proof.
  unfold np_zeros_bool.
  destruct (existsb _ dims); [discriminate |].
  destruct (_ <=? _); [discriminate |].
  unfold alloc. intros [= _ <-]. eauto.
Qed.

(** On a numpy before 1.12 the call fails as well: whatever passes
    [np.zeros] there is a one-entry array, whose single threshold starts
    the loop, and line 101 is refused. *)
Lemma intersection_legacy_raises coefs th h :
  exists e h', intersection true coefs th h = (Raise e, h').
Proof.
  unfold intersection, shape_at.
  destruct (shape coefs !! 1%nat) as [nl |]; [| eexists _, _; reflexivity].
  unfold bind at 1, ret at 1.
  destruct (shape coefs !! 2%nat) as [nf |]; [| eexists _, _; reflexivity].
  unfold bind at 1, ret at 1.
  destruct th as [ts | a]; [eexists _, _; reflexivity |].
  unfold index_of at 1. unfold bind at 1 2, buffer_of.
  destruct (h !! base a) as [b |] eqn:Ha; [| eexists _, _; reflexivity].
  destruct b as [d | [| v [| w d]] | d | k]; try (eexists _, _; reflexivity).
  cbn [orb]. unfold ret at 1. unfold bind at 1.
  destruct (np_zeros_bool _ h) as [[supports | e] h1] eqn:Ez;
    [| eexists _, _; reflexivity].
  destruct (np_zeros_bool_grows _ _ _ _ Ez) as [z ->].
  unfold elements_of.
  destruct (shape a) as [| d0 rest]; [eexists _, _; reflexivity |].
  destruct (size_of rest =? 1)%nat; [| eexists _, _; reflexivity].
  rewrite (bind_ok _ _ _ _ _ (ints_of_ok _ _ _ (lookup_old _ _ _ _ Ha))).
  cbn [intersection_loop]. eexists _, _; reflexivity.
Qed.


(** X11.  Line 101 computes the specified support: for a tensor with
    three axes [(nb, nl, nf)], the array [count_nonzero(coefs, axis=0) >=
    threshold] has shape [(nl, nf)] and its entry for regularisation
    strength [l] and feature [f] is [True] exactly when the coefficient is
    nonzero in at least [threshold] of the [nb] bootstraps. *)
Theorem X11_line_101_is_the_specified_support (coefs : ndarray) (t : Z)
    (h : heap) (b : buffer) (nb nl nf : nat) (flags : list bool) :
  h !! base coefs = Some b -> shape coefs = [nb; nl; nf] ->
  nonzero_flags b = Some flags ->
  returned_bools (threshold_support coefs t) h =
    Ok ([nl; nf], spec_support nb nl nf flags t).
Proof.
  intros Hb Hs Hf.
  rewrite (threshold_support_run _ _ _ _ _ _ _ Hb Hs Hf).
  now rewrite support_data_spec.
Qed.

Lemma X11_line_101_is_the_specified_support_witness :
  returned_bools (threshold_support example_coefs 3) example_heap =
    Ok ([1; 3]%nat,
        spec_support 5 1 3 (map Float64.is_nonzero example_tensor) 3).
Proof.
  apply (X11_line_101_is_the_specified_support example_coefs 3 example_heap
           (BFloat example_tensor)); reflexivity.
Defined.

Lemma count_column_range nb inner flags j :
  0 <= count_column nb inner flags j <= Z.of_nat nb.
Proof.
  unfold count_column. split; [lia |].
  apply Nat2Z.inj_le.
  etransitivity; [apply length_filter |]. now rewrite length_seq.
Qed.

Lemma map_constant {A B} (g : A -> B) (c : B) (l : list A) :
  (forall x, g x = c) -> map g l = replicate (length l) c.
Proof.
  intros Hg. induction l as [| x l IH]; [reflexivity |].
  cbn. now rewrite Hg, IH.
Qed.

(** X12.  The two ends of the threshold range: a threshold of zero or
    less selects every feature at every regularisation strength, and a
    threshold above the number of bootstraps selects none. *)
Theorem X12_support_extremes (coefs : ndarray) (t : Z) (h : heap)
    (b : buffer) (nb : nat) (rest : list nat) (flags : list bool) :
  h !! base coefs = Some b -> shape coefs = nb :: rest ->
  nonzero_flags b = Some flags ->
  (t <= 0 ->
   returned_bools (threshold_support coefs t) h
     = Ok (rest, replicate (size_of rest) true))
  /\ (Z.of_nat nb < t ->
      returned_bools (threshold_support coefs t) h
        = Ok (rest, replicate (size_of rest) false)).
Proof.
  intros Hb Hs Hf.
  rewrite (threshold_support_run _ _ _ _ _ _ _ Hb Hs Hf).
  unfold count_axis0. rewrite map_map.
  split; intros Ht.
  - rewrite (map_constant _ true), length_seq; [reflexivity |].
    intros j. pose proof (count_column_range nb (size_of rest) flags j).
    apply Z.leb_le. lia.
  - rewrite (map_constant _ false), length_seq; [reflexivity |].
    intros j. pose proof (count_column_range nb (size_of rest) flags j).
    apply Z.leb_gt. lia.
Qed.

Lemma X12_support_extremes_witness :
  returned_bools (threshold_support example_coefs 0) example_heap
    = Ok ([1; 3]%nat, replicate (size_of [1; 3]%nat) true)
  /\ returned_bools (threshold_support example_coefs 6) example_heap
       = Ok ([1; 3]%nat, replicate (size_of [1; 3]%nat) false).
Proof.
  split.
  - apply (proj1 (X12_support_extremes example_coefs 0 example_heap
                    (BFloat example_tensor) 5 [1; 3]%nat _
                    eq_refl eq_refl eq_refl)).
    lia.
  - apply (proj2 (X12_support_extremes example_coefs 6 example_heap
                    (BFloat example_tensor) 5 [1; 3]%nat _
                    eq_refl eq_refl eq_refl)).
    lia.
Defined.

(** * The two functions together *)

Lemma index_of_not_single legacy a d h :
  h !! base a = Some (BInt d) -> length d <> 1%nat ->
  exists msg, index_of legacy (ThArray a) h = (Raise (TypeError msg), h).
Proof.
  intros Ha Hl. unfold index_of.
  rewrite (bind_ok _ _ _ _ _ (buffer_of_ok _ _ _ Ha)).
  destruct d as [| v [| w d]]; [| now destruct Hl |]; eexists; reflexivity.
Qed.

Lemma intersection_index_raises legacy coefs th h nb nl nf e h' :
  shape coefs = [nb; nl; nf] ->
  index_of legacy th h = (Raise e, h') ->
  intersection legacy coefs th h = (Raise e, h').
Proof.
  intros Hs E. unfold intersection, shape_at. rewrite Hs.
  cbn [lookup list_lookup].
  change (bind (ret nl) ?k h) with (k nl h). cbv beta.
  change (bind (ret nf) ?k h) with (k nf h). cbv beta.
  now rewrite (bind_raise _ _ _ _ _ E).
Qed.

(** X13.  Feeding the resolved thresholds to [intersection]: the array
    [stability_selection_to_threshold] returns holds the thresholds, and
    whenever there are none, or two and more, [intersection] on a tensor
    with three axes raises a [TypeError] in [np.zeros] and creates
    nothing. *)
Theorem X13_resolved_thresholds_rejected (ss : pyobj) (n : Z) (h h' : heap)
    (a coefs : ndarray) (legacy : bool) (nb nl nf : nat) :
  stability_selection_to_threshold ss n h = (Ok a, h') ->
  shape coefs = [nb; nl; nf] ->
  exists ths,
    returned_ints (stability_selection_to_threshold ss n) h = Ok ths /\
    (length ths <> 1%nat ->
     exists msg,
       intersection legacy coefs (ThArray a) h'
         = (Raise (TypeError msg), h')).
Proof.
  intros E Hs.
  destruct (sstt_returned_entries _ _ _ _ _ E) as (ths & Ha & _ & _).
  exists ths. split.
  - unfold returned_ints. now rewrite E, Ha.
  - intros Hl.
    destruct (index_of_not_single legacy a ths h' Ha Hl) as [msg Ei].
    exists msg. exact (intersection_index_raises _ _ _ _ _ _ _ _ _ Hs Ei).
Qed.

Lemma X13_resolved_thresholds_rejected_witness :
  exists ths,
    returned_ints
      (stability_selection_to_threshold (PyList [PyInt 5; PyInt 9]) 10) []
      = Ok ths /\
    (length ths <> 1%nat ->
     exists msg,
       intersection true {| base := 7; shape := [5; 1; 3]%nat |}
         (ThArray {| base := 1; shape := [2%nat] |})
         [BInt [5; 9]; BInt [5; 9]; BBool [true; true]; BBool [true; true]]
       = (Raise (TypeError msg),
          [BInt [5; 9]; BInt [5; 9]; BBool [true; true]; BBool [true; true]])).
Proof.
  apply (X13_resolved_thresholds_rejected (PyList [PyInt 5; PyInt 9]) 10 []
           _ _ {| base := 7; shape := [5; 1; 3]%nat |} true 5 1 3).
  - vm_compute. reflexivity.
  - reflexivity.
Defined.

Lemma convert_scalar_inv ss n h c h1 :
  is_scalar ss -> convert ss n h = (Ok c, h1) ->
  exists t, c = {| base := length h; shape := [1%nat] |} /\
            h1 = h ++ [BInt [t]].
Proof.
  destruct ss as [x | z | b | items | a0 |]; cbn [is_scalar];
    try contradiction; intros _.
  - destruct (convert_float_cases x n h) as [(t & _ & _ & E) | [e E]];
      rewrite E; [| discriminate].
    intros [= <- <-]. eauto.
  - unfold convert. rewrite np_array_ints_single.
    destruct (in_int64 z); [| discriminate]. intros [= <- <-]. eauto.
  - unfold convert. rewrite np_array_ints_single.
    destruct (in_int64 (Z.b2z b)); [| discriminate]. intros [= <- <-]. eauto.
Qed.

(** X14.  A scalar criterion followed by [intersection]: the criterion
    resolves to exactly one threshold [t], [2 <= t <= n_boots], in an
    array of shape (1,), and [intersection] on that array and a tensor
    with three axes never returns.  On numpy from 1.12 [np.zeros] raises a
    [TypeError] and nothing is created; on the releases before, the call
    raises as well. *)
Theorem X14_scalar_criterion_then_intersection (ss : pyobj) (n : Z)
    (h h' : heap) (a coefs : ndarray) (nb nl nf : nat) :
  is_scalar ss ->
  stability_selection_to_threshold ss n h = (Ok a, h') ->
  shape coefs = [nb; nl; nf] ->
  exists t,
    returned_ints (stability_selection_to_threshold ss n) h = Ok [t] /\
    2 <= t <= n /\ shape a = [1%nat] /\
    (exists msg,
       intersection false coefs (ThArray a) h' = (Raise (TypeError msg), h'))
    /\ (exists e h'',
          intersection true coefs (ThArray a) h' = (Raise e, h'')).
Proof.
  intros Hsc E Hs.
  destruct (sstt_returns_inv _ _ _ _ _ E)
    as (c & h1 & b0 & ths & ext & Ec & Hb0 & Hd & B & -> & ->).
  destruct (convert_scalar_inv _ _ _ _ _ Hsc Ec) as (t & -> & ->).
  cbn [base shape] in *. rewrite lookup_fresh in Hb0.
  injection Hb0 as <-. cbn [int_entries] in Hd. injection Hd as <-.
  apply bounds_ok_spec in B. inversion B as [| ? ? Ht _]; subst.
  exists t. split; [| split; [lia | split; [reflexivity | split]]].
  - unfold returned_ints. rewrite E. cbn [base]. now rewrite lookup_fresh.
  - eexists.
    apply (intersection_index_raises false coefs _ _ nb nl nf _ _ Hs).
    unfold index_of.
    erewrite bind_ok;
      [| apply buffer_of_ok; cbn [base]; apply lookup_fresh].
    reflexivity.
  - apply intersection_legacy_raises.
Qed.

Lemma X14_scalar_criterion_then_intersection_witness :
  exists t,
    returned_ints
      (stability_selection_to_threshold (PyFloat (Float64.of_ratio 9 10)) 5)
      example_heap = Ok [t] /\
    2 <= t <= 5 /\ [1%nat] = [1%nat] /\
    (exists msg,
       intersection false example_coefs
         (ThArray {| base := 4; shape := [1%nat] |})
         (example_heap ++ [BInt [4]; BInt [4]; BBool [true]; BBool [true]])
       = (Raise (TypeError msg),
          example_heap ++ [BInt [4]; BInt [4]; BBool [true]; BBool [true]]))
    /\ (exists e h'',
          intersection true example_coefs
            (ThArray {| base := 4; shape := [1%nat] |})
            (example_heap ++ [BInt [4]; BInt [4]; BBool [true]; BBool [true]])
          = (Raise e, h'')).
Proof.
  apply (X14_scalar_criterion_then_intersection
           (PyFloat (Float64.of_ratio 9 10)) 5 example_heap _
           {| base := 4; shape := [1%nat] |} example_coefs 5 1 3).
  - exact I.
  - vm_compute. reflexivity.
  - reflexivity.
Defined.

Lemma np_mul_scalar_float_ok n a d h :
  h !! base a = Some (BFloat d) ->
  np_mul_scalar n a h =
    (Ok {| base := length h; shape := shape a |},
     h ++ [BFloat (map (Float64.mul (Float64.of_Z n)) d)]).
Proof.
  intros Ha. unfold np_mul_scalar.
  now rewrite (bind_ok _ _ _ _ _ (buffer_of_ok _ _ _ Ha)).
Qed.

(** X15.  An array is resolved like the list of its entries: a float64
    array and the list of the same floats, an int64 array and the list of
    the same ints, have the same outcome, thresholds or exception. *)
Theorem X15_array_resolves_like_list (a : ndarray) (n : Z) (h : heap) :
  (forall xs, h !! base a = Some (BFloat xs) ->
     returned_ints (stability_selection_to_threshold (PyArray a) n) h =
     returned_ints
       (stability_selection_to_threshold (PyList (map PyFloat xs)) n) h)
  /\ (forall zs, h !! base a = Some (BInt zs) ->
        forallb in_int64 zs = true ->
        returned_ints (stability_selection_to_threshold (PyArray a) n) h =
        returned_ints
          (stability_selection_to_threshold (PyList (map PyInt zs)) n) h).
Proof.
  split.
  - intros xs Ha. rewrite returned_ints_float_list. cbv zeta.
    erewrite returned_ints_after_convert;
      [ | unfold convert;
          rewrite (bind_ok _ _ _ _ _ (buffer_of_ok _ _ _ Ha));
          apply (np_mul_scalar_float_ok _ _ _ _ Ha)
        | cbn [base]; apply lookup_fresh
        | cbn [int_entries]; rewrite map_map; reflexivity ].
    reflexivity.
  - intros zs Ha Hr.
    erewrite returned_ints_after_convert;
      [ | unfold convert;
          rewrite (bind_ok _ _ _ _ _ (buffer_of_ok _ _ _ Ha)); reflexivity
        | exact Ha | reflexivity ].
    destruct zs as [| z zs].
    + change (map PyInt []) with (map PyFloat []).
      now rewrite returned_ints_float_list.
    + symmetry. eapply returned_ints_after_convert;
        [ apply convert_int_list; [discriminate | exact Hr]
        | cbn [base]; apply lookup_fresh | reflexivity ].
Qed.

Lemma X15_array_resolves_like_list_witness :
  returned_ints
    (stability_selection_to_threshold (PyArray example_two_thresholds) 10)
    example_heap =
  returned_ints
    (stability_selection_to_threshold (PyList (map PyInt [4; 3])) 10)
    example_heap.
Proof.
  apply (proj2 (X15_array_resolves_like_list example_two_thresholds 10
                  example_heap) [4; 3]); reflexivity.
Defined.
